(** * Freelance Marketplace Dashboard: the data pipeline of [app.py]

    The script loads one workbook into a pandas frame, shows three overview
    metrics, narrows the frame by one selected client country and feeds three
    grouped summaries to three charts.  This development embeds that pipeline
    and the script's control flow, and proves the properties its specification
    states about them.

    Representation.
    - A frame is the list of its rows, in row order; a column is the list of
      one field of every row.
    - A text column has dtype [object]: a cell holds a [str], or NaN where the
      workbook has a blank cell.  [cell] is [option string], [None] is NaN.
    - A numeric column has dtype [float64]: a cell holds a number, or NaN
      where the workbook has a blank cell.  [num] is [option Q], [None] is
      NaN.  Numbers are exact rationals: the rounding and the overflow of
      binary floating point are not part of the model.
    - Counts are natural numbers.
    - A figure is the table handed to plotly.  The check plotly makes on the
      marker sizes of the scatter chart is part of the model; what plotly
      draws is not. *)

From Stdlib Require Import String Ascii List Bool Arith PeanoNat ZArith QArith Lia.
From Stdlib Require Import Permutation Sorted.
Import ListNotations.

Local Close Scope Q_scope.
Local Open Scope string_scope.
Local Open Scope list_scope.

(** ** Cells, rows, frames *)

Definition cell := option string.
Definition NaN : cell := None.

Definition num := option Q.

Record JobPosting := mkJobPosting {
  Price_USD : num;
  client_country : cell;
  Skill_Category : cell;
  Freelancer_Friction_Index : num;
  Job_Type : cell
}.

Definition DataFrame := list JobPosting.

(** [df.empty]: no rows. *)
Definition empty (df : DataFrame) : bool :=
  match df with [] => true | _ :: _ => false end.

(** Python's [==] on the cells of an object column: two strings compare by
    value, and NaN is equal to nothing, itself included. *)
Definition cell_eqb (a b : cell) : bool :=
  match a, b with
  | Some x, Some y => String.eqb x y
  | _, _ => false
  end.

(** The identity pandas uses when it collects distinct values or group keys:
    all NaN are one value. *)
Definition cell_same (a b : cell) : bool :=
  match a, b with
  | Some x, Some y => String.eqb x y
  | None, None => true
  | _, _ => false
  end.

Definition is_str (c : cell) : bool :=
  match c with Some _ => true | None => false end.

Definition is_nan (c : cell) : bool := negb (is_str c).

(** [Series.dropna()] on an object column: the strings that are present. *)
Fixpoint dropna (col : list cell) : list string :=
  match col with
  | [] => []
  | Some s :: col' => s :: dropna col'
  | None :: col' => dropna col'
  end.

(** ** Filter stage (app.py, lines 70-75) *)

Definition All_Countries : string := "All Countries".

(** [df[mask]]: boolean indexing keeps the rows whose mask entry is [True].
    The mask is always computed from a column of the same frame, so the two
    lists have one length; pandas rejects any other mask. *)
Fixpoint getitem_mask {A : Type} (rows : list A) (mask : list bool) : list A :=
  match rows, mask with
  | r :: rows', b :: mask' =>
      if b then r :: getitem_mask rows' mask' else getitem_mask rows' mask'
  | _, _ => []
  end.

(** [df['client_country'] == selected_country] *)
Definition country_mask (df : DataFrame) (selected_country : cell) : list bool :=
  map (fun c => cell_eqb c selected_country) (map client_country df).

Definition df_filtered (df : DataFrame) (selected_country : cell) : DataFrame :=
  if negb (cell_eqb selected_country (Some All_Countries))
  then getitem_mask df (country_mask df selected_country)
  else df.

(** Order-preserving sub-list: [Subseq s l] when [s] is [l] with some rows
    left out. *)
Inductive Subseq {A : Type} : list A -> list A -> Prop :=
| Subseq_nil : Subseq [] []
| Subseq_keep x s l : Subseq s l -> Subseq (x :: s) (x :: l)
| Subseq_drop x s l : Subseq s l -> Subseq s (x :: l).

Create HintDb frame.
#[local] Hint Constructors Subseq : frame.

(** ** Aggregation stage (app.py, lines 78-80, 128-129, 154-155) *)

(** Distinct values in order of first appearance, as the hash table behind
    [unique], [value_counts] and [groupby] meets them. *)
Fixpoint unique_by {A : Type} (same : A -> A -> bool) (l : list A) : list A :=
  match l with
  | [] => []
  | x :: l' => x :: filter (fun y => negb (same x y)) (unique_by same l')
  end.

(** [Series.unique()]: NaN is kept, once. *)
Definition unique (col : list cell) : list cell := unique_by cell_same col.

(** The distinct strings of a column; NaN is left out, as [nunique],
    [value_counts] and [groupby] do by default ([dropna=True]). *)
Definition distinct (col : list cell) : list string :=
  unique_by String.eqb (dropna col).

(** [Series.nunique()] *)
Definition nunique (col : list cell) : nat := length (distinct col).

(** Ascending stable insertion sort of strings, the order of Python's [<] on
    [str] (lexicographic by code point). *)
Fixpoint insert_str (x : string) (l : list string) : list string :=
  match l with
  | [] => [x]
  | y :: l' => if String.leb x y then x :: y :: l' else y :: insert_str x l'
  end.

Definition sort_str (l : list string) : list string :=
  fold_right insert_str [] l.

(** The numbers of a numeric column, NaN left out. *)
Fixpoint notna (col : list num) : list Q :=
  match col with
  | [] => []
  | Some q :: col' => q :: notna col'
  | None :: col' => notna col'
  end.

(** Sum of numbers, and [Series.mean()] ([skipna=True]): the sum of the
    numbers that are present divided by how many they are; when none is
    present the result is NaN, pandas tests the count before it divides. *)
Definition Qsum (l : list Q) : Q := fold_right Qplus 0%Q l.

Definition mean (col : list num) : num :=
  match notna col with
  | [] => None
  | q :: l => Some (Qsum (q :: l) / inject_Z (Z.of_nat (length (q :: l))))%Q
  end.

(** The rows of one group, in row order. *)
Definition group_rows (key : JobPosting -> cell) (k : string) (df : DataFrame)
  : DataFrame :=
  filter (fun r => cell_same (key r) (Some k)) df.

(** [df.groupby(key)[val].mean().reset_index()]: one row per distinct key,
    keys ascending ([sort=True]), rows with a NaN key left out. *)
Definition groupby_mean (key : JobPosting -> cell) (val : JobPosting -> num)
  (df : DataFrame) : list (string * num) :=
  map (fun k => (k, mean (map val (group_rows key k df))))
      (sort_str (distinct (map key df))).

(** [pd.merge(left, right, on=key)]: inner join, every left row paired with
    every right row of the same key, in the order of the left rows. *)
Definition merge (left right : list (string * num))
  : list (string * num * num) :=
  flat_map
    (fun l => map (fun r => (fst l, snd l, snd r))
                  (filter (fun r => String.eqb (fst r) (fst l)) right))
    left.

Definition avg_price_by_skill (df : DataFrame) : list (string * num) :=
  groupby_mean Skill_Category Price_USD df.

Definition avg_friction_by_skill (df : DataFrame) : list (string * num) :=
  groupby_mean Skill_Category Freelancer_Friction_Index df.

Definition market_analysis (df : DataFrame) : list (string * num * num) :=
  merge (avg_price_by_skill df) (avg_friction_by_skill df).

(** Number of cells of a column that hold the string [k]. *)
Definition count_str (k : string) (col : list cell) : nat :=
  count_occ string_dec (dropna col) k.

(** Descending stable sort of a count table: among equal counts the earlier
    row stays first.  (pandas leaves the order of ties open for long tables;
    nothing proved below depends on it.) *)
Fixpoint insert_desc (x : string * nat) (l : list (string * nat))
  : list (string * nat) :=
  match l with
  | [] => [x]
  | y :: l' => if Nat.ltb (snd x) (snd y) then y :: insert_desc x l' else x :: y :: l'
  end.

Definition sort_values_desc (s : list (string * nat)) : list (string * nat) :=
  fold_right insert_desc [] s.

(** [Series.value_counts()]: one row per distinct string with the number of
    its cells, NaN cells not counted, largest count first. *)
Definition value_counts (col : list cell) : list (string * nat) :=
  sort_values_desc (map (fun k => (k, count_str k col)) (distinct col)).

(** [Series.nlargest(n)]: the [n] largest, largest first, earlier rows first
    among equals ([keep='first']). *)
Definition nlargest (n : nat) (s : list (string * nat)) : list (string * nat) :=
  firstn n (sort_values_desc s).

Definition country_counts (df : DataFrame) : list (string * nat) :=
  nlargest 10 (value_counts (map client_country df)).

Definition job_type_counts (df : DataFrame) : list (string * nat) :=
  value_counts (map Job_Type df).

(** ** Overview metrics (app.py, lines 43-45) *)

Definition total_jobs (df : DataFrame) : nat := length df.

Definition avg_price (df : DataFrame) : num := mean (map Price_USD df).

Definition unique_countries (df : DataFrame) : nat :=
  nunique (map client_country df).

(** ** The script (app.py, top to bottom)

    One run of the script is a computation over a [Session]: the calls made
    to Streamlit so far, in order, and the module-level variables bound so
    far.  A run ends normally, is halted by [st.stop()], or is left by an
    exception nobody catches. *)

(** The exceptions of a run: what [read_excel] raises for a missing, a
    protected or a malformed workbook, and the [TypeError] of a comparison
    between a [str] and a NaN. *)
Inductive exn := FileNotFoundError | PermissionError | ValueError | TypeError.

Inductive metric_value :=
| Count (n : nat)
| Money (q : num).

Inductive figure :=
| px_scatter (data_frame : list (string * num * num))
| px_bar (data_frame : list (string * nat))
| px_pie (data_frame : list (string * nat)).

(** The Streamlit calls of the script.  A call whose arguments are fixed text
    or layout ([set_page_config], [title], [header], [subheader], [columns],
    [markdown], [info], [caption]) is [st_fixed] with its source line. *)
Inductive st_call :=
| st_fixed (line : nat)
| st_error (line : nat)
| st_metric (label : string) (value : metric_value)
| st_sidebar_selectbox (options : list cell)
| st_markdown_viewing (selected_country : cell)
| st_plotly_chart (fig : figure).

Record Session := mkSession {
  ui : list st_call;
  g_df : option DataFrame;
  g_total_jobs : option nat;
  g_avg_price : option num;
  g_unique_countries : option nat;
  g_selected_country : option cell;
  g_df_filtered : option DataFrame;
  g_market_analysis : option (list (string * num * num));
  g_country_counts : option (list (string * nat));
  g_job_type_counts : option (list (string * nat))
}.

Definition fresh : Session :=
  mkSession [] None None None None None None None None None.

Inductive result (A : Type) :=
| Ok (a : A)
| Stopped
| Raised (e : exn).

Arguments Ok {A} a.
Arguments Stopped {A}.
Arguments Raised {A} e.

Definition Script (A : Type) := Session -> result A * Session.

Definition ret {A : Type} (a : A) : Script A := fun s => (Ok a, s).

Definition bind {A B : Type} (c : Script A) (k : A -> Script B) : Script B :=
  fun s =>
    match c s with
    | (Ok a, s') => k a s'
    | (Stopped, s') => (Stopped, s')
    | (Raised e, s') => (Raised e, s')
    end.

Declare Scope script_scope.
Delimit Scope script_scope with script.
Notation "x <- c ;; k" := (bind c (fun x => k))
  (at level 61, c at next level, right associativity) : script_scope.
Notation "c ;; k" := (bind c (fun _ => k))
  (at level 61, right associativity) : script_scope.
Local Open Scope script_scope.

Definition raise {A : Type} (e : exn) : Script A := fun s => (Raised e, s).

(** [st.stop()] *)
Definition st_stop : Script unit := fun s => (Stopped, s).

(** [try: body  except FileNotFoundError: handler] *)
Definition try_except_FileNotFoundError {A : Type} (body handler : Script A)
  : Script A :=
  fun s =>
    match body s with
    | (Raised FileNotFoundError, s') => handler s'
    | r => r
    end.

Definition st (c : st_call) : Script unit :=
  fun '(mkSession u d n p k sel f m cc jt) =>
    (Ok tt, mkSession (u ++ [c]) d n p k sel f m cc jt).

Definition set_df (v : DataFrame) : Script unit :=
  fun '(mkSession u _ n p k sel f m cc jt) =>
    (Ok tt, mkSession u (Some v) n p k sel f m cc jt).

Definition set_overview (n : nat) (p : num) (k : nat) : Script unit :=
  fun '(mkSession u d _ _ _ sel f m cc jt) =>
    (Ok tt, mkSession u d (Some n) (Some p) (Some k) sel f m cc jt).

Definition set_selected_country (v : cell) : Script unit :=
  fun '(mkSession u d n p k _ f m cc jt) =>
    (Ok tt, mkSession u d n p k (Some v) f m cc jt).

Definition set_df_filtered (v : DataFrame) : Script unit :=
  fun '(mkSession u d n p k sel _ m cc jt) =>
    (Ok tt, mkSession u d n p k sel (Some v) m cc jt).

Definition set_market_analysis (v : list (string * num * num)) : Script unit :=
  fun '(mkSession u d n p k sel f _ cc jt) =>
    (Ok tt, mkSession u d n p k sel f (Some v) cc jt).

Definition set_country_counts (v : list (string * nat)) : Script unit :=
  fun '(mkSession u d n p k sel f m _ jt) =>
    (Ok tt, mkSession u d n p k sel f m (Some v) jt).

Definition set_job_type_counts (v : list (string * nat)) : Script unit :=
  fun '(mkSession u d n p k sel f m cc _) =>
    (Ok tt, mkSession u d n p k sel f m cc (Some v)).

(** [load_data] (lines 20-28).  [read_excel] is what
    [pd.read_excel('freelance_dashboard_data.xlsx')] does in this run: it
    returns a frame or raises.  Only [FileNotFoundError] is caught; the
    handler shows the error and returns [pd.DataFrame()], a frame with no
    rows.  ([st.cache_data] only saves repeating the read in later runs.) *)
Definition load_data (read_excel : exn + DataFrame) : Script DataFrame :=
  try_except_FileNotFoundError
    (match read_excel with
     | inr data => ret data
     | inl e => raise e
     end)
    (st (st_error 27) ;; ret []).

(** Python's [sorted] on the distinct cells of a column: strings are ordered
    among themselves, NaN among themselves (none is below another, the order
    stays), and a string compared with a NaN is a [TypeError]. *)
Definition sorted (l : list cell) : Script (list cell) :=
  if forallb is_str l then ret (map Some (sort_str (dropna l)))
  else if forallb is_nan l then ret l
  else raise TypeError.

(** [st.sidebar.selectbox(label, options)]: shows the options and returns the
    one the user has picked, the first one until they pick.  [choice] is the
    position of the pick; a position past the last option stands for no
    pick. *)
Definition sidebar_selectbox (options : list cell) (choice : nat)
  : Script cell :=
  st (st_sidebar_selectbox options) ;;
  ret (nth choice options (hd NaN options)).

Definition when (b : bool) (c : Script unit) : Script unit :=
  if b then c else ret tt.

(** A marker size plotly accepts: a number that is not negative. *)
Definition size_ok (size : num) : bool :=
  match size with
  | Some q => Qle_bool 0 q
  | None => false
  end.

(** [px.scatter(market_analysis, ..., size='Price_USD', ...)] (lines 84-96):
    the mean prices are the marker sizes, and plotly raises [ValueError] when
    one of them is negative or NaN.  A table without rows has no size to
    reject. *)
Definition sizes_ok (data_frame : list (string * num * num)) : bool :=
  forallb (fun row => size_ok (snd (fst row))) data_frame.

Definition scatter (data_frame : list (string * num * num)) : Script figure :=
  if sizes_ok data_frame
  then ret (px_scatter data_frame)
  else raise ValueError.

(** Section 1 of the script (lines 39-57): the title and the three overview
    metrics, computed from [df]. *)
Definition section1_overview (df : DataFrame) : Script unit :=
  st (st_fixed 39) ;;
  st (st_fixed 40) ;;
  set_overview (total_jobs df) (avg_price df) (unique_countries df) ;;
  st (st_fixed 48) ;;
  st (st_metric "Total Job Postings (Demand)" (Count (total_jobs df))) ;;
  st (st_metric "Average Project Price (USD)" (Money (avg_price df))) ;;
  st (st_metric "Unique Client Countries" (Count (unique_countries df))) ;;
  st (st_fixed 57).

(** Section 2 (lines 61-113): the country selection, the filter, the
    category table and the scatter chart.  Its value is the filtered frame,
    which section 3 reads. *)
Definition section2_market_tightness (df : DataFrame) (choice : nat)
  : Script DataFrame :=
  st (st_fixed 61) ;;
  st (st_fixed 64) ;;
  countries <- sorted (unique (map client_country df)) ;;
  selected_country <-
    sidebar_selectbox (Some All_Countries :: countries) choice ;;
  set_selected_country selected_country ;;
  set_df_filtered (df_filtered df selected_country) ;;
  when (negb (cell_eqb selected_country (Some All_Countries)))
       (st (st_markdown_viewing selected_country)) ;;
  set_market_analysis (market_analysis (df_filtered df selected_country)) ;;
  fig1 <- scatter (market_analysis (df_filtered df selected_country)) ;;
  st (st_fixed 100) ;;
  st (st_plotly_chart fig1) ;;
  st (st_fixed 106) ;;
  st (st_fixed 107) ;;
  st (st_fixed 113) ;;
  ret (df_filtered df selected_country).

(** Section 3 (lines 118-178): the bar chart of country counts, the pie chart
    of job types and the footer. *)
Definition section3_regional (filtered : DataFrame) : Script unit :=
  st (st_fixed 118) ;;
  st (st_fixed 121) ;;
  st (st_fixed 125) ;;
  set_country_counts (country_counts filtered) ;;
  st (st_plotly_chart (px_bar (country_counts filtered))) ;;
  st (st_fixed 143) ;;
  st (st_fixed 144) ;;
  st (st_fixed 151) ;;
  set_job_type_counts (job_type_counts filtered) ;;
  st (st_plotly_chart (px_pie (job_type_counts filtered))) ;;
  st (st_fixed 168) ;;
  st (st_fixed 169) ;;
  st (st_fixed 175) ;;
  st (st_fixed 177) ;;
  st (st_fixed 178).

(** The whole script.  Section 0 (lines 11-34) configures the page, loads
    the frame and stops the run when the frame is empty. *)
Definition app (read_excel : exn + DataFrame) (choice : nat) : Script unit :=
  st (st_fixed 11) ;;
  df <- load_data read_excel ;;
  set_df df ;;
  when (empty df) st_stop ;;
  section1_overview df ;;
  filtered <- section2_market_tightness df choice ;;
  section3_regional filtered.

(** One run: the script from a fresh session. *)
Definition run (read_excel : exn + DataFrame) (choice : nat)
  : result unit * Session :=
  app read_excel choice fresh.

(** ** Reading the result tables *)

(** Key and value columns of the merged table. *)
Definition key3 (row : string * num * num) : string := fst (fst row).

(** The entry of a category in the merged table, as a mapping from
    [Skill_Category] to (mean price, mean friction). *)
Definition lookup3 (c : string) (t : list (string * num * num))
  : option (num * num) :=
  match find (fun row => String.eqb (key3 row) c) t with
  | Some row => Some (snd (fst row), snd row)
  | None => None
  end.

(** The count of a key in a count table, as a mapping. *)
Definition lookup_count (k : string) (t : list (string * nat)) : option nat :=
  match find (fun row => String.eqb (fst row) k) t with
  | Some row => Some (snd row)
  | None => None
  end.

(** Sum of the count column. *)
Definition sum_counts (t : list (string * nat)) : nat :=
  list_sum (map snd t).

(** Largest count first: every row's count is at least the count of every
    later row. *)
Definition non_increasing (t : list (string * nat)) : Prop :=
  StronglySorted (fun a b => snd b <= snd a) t.

(** Equality of computed numbers: the same rational, or both NaN. *)
Definition num_eq (a b : num) : Prop :=
  match a, b with
  | Some x, Some y => (x == y)%Q
  | None, None => True
  | _, _ => False
  end.

(** The three overview variables of a session. *)
Definition overview (s : Session) : option nat * option num * option nat :=
  (g_total_jobs s, g_avg_price s, g_unique_countries s).

(** A computation that never rebinds the overview variables. *)
Definition keeps_overview {A : Type} (c : Script A) : Prop :=
  forall s, overview (snd (c s)) = overview s.

(** No stage after the loader has run: nothing is filtered, no summary is
    computed, no selection is offered and no chart is drawn. *)
Definition pipeline_untouched (s : Session) : Prop :=
  overview s = (None, None, None) /\
  g_selected_country s = None /\
  g_df_filtered s = None /\
  g_market_analysis s = None /\
  g_country_counts s = None /\
  g_job_type_counts s = None /\
  (forall c, In c (ui s) -> c = st_fixed 11 \/ exists line, c = st_error line).

(** An error message is on the page. *)
Definition error_shown (s : Session) : Prop :=
  exists line, In (st_error line) (ui s).

(** The scenario of the specification: three postings. *)
Definition scenario : DataFrame :=
  [ mkJobPosting (Some 100%Q) (Some "US") (Some "Writing") (Some (8 # 10)%Q)
                 (Some "Fixed");
    mkJobPosting (Some 300%Q) (Some "US") (Some "Dev") (Some (2 # 10)%Q)
                 (Some "Hourly");
    mkJobPosting (Some 200%Q) (Some "IN") (Some "Dev") (Some (3 # 10)%Q)
                 (Some "Fixed") ].

(** A frame in which one client country is spelled like the sentinel. *)
Definition sentinel_rows : DataFrame :=
  [ mkJobPosting (Some 100%Q) (Some "All Countries") (Some "Dev")
                 (Some (1 # 2)%Q) (Some "Fixed");
    mkJobPosting (Some 300%Q) (Some "US") (Some "Dev") (Some (1 # 2)%Q)
                 (Some "Fixed") ].

(** A frame whose only row has a blank [Job_Type] cell. *)
Definition blank_job_type : DataFrame :=
  [ mkJobPosting (Some 100%Q) (Some "US") (Some "Dev") (Some (1 # 2)%Q) NaN ].

(** ** Vocabulary of the statements

    What the properties below say about rows, values and means is written
    with these definitions; the script above uses none of them. *)

(** The row has the [Skill_Category] [c]; the row has the client country
    [c]. *)
Definition in_category (c : string) (r : JobPosting) : bool :=
  match Skill_Category r with
  | Some k => String.eqb k c
  | None => false
  end.

Definition from_country (c : string) (r : JobPosting) : bool :=
  match client_country r with
  | Some k => String.eqb k c
  | None => false
  end.

(** The values of a numeric column that are present. *)
Definition present (col : list num) : list Q :=
  flat_map (fun x => match x with Some q => [q] | None => [] end) col.

(** The total of a list of numbers, added from the left. *)
Definition total (l : list Q) : Q := fold_left Qplus l 0%Q.

(** [m] is the arithmetic mean of the numbers [l]: their total divided by
    how many they are; no number, no mean (NaN). *)
Definition is_mean_of (l : list Q) (m : num) : Prop :=
  match m with
  | Some q => l <> [] /\ (q * inject_Z (Z.of_nat (length l)) == total l)%Q
  | None => l = []
  end.

(** ** Reading the page *)

(** The figures drawn so far, in order. *)
Definition charts (u : list st_call) : list figure :=
  flat_map (fun c => match c with st_plotly_chart f => [f] | _ => [] end) u.

(** The metrics shown so far, in order. *)
Definition metrics (u : list st_call) : list (string * metric_value) :=
  flat_map (fun c => match c with st_metric l v => [(l, v)] | _ => [] end) u.

(** The option lists offered so far. *)
Definition selectboxes (u : list st_call) : list (list cell) :=
  flat_map (fun c => match c with st_sidebar_selectbox o => [o] | _ => [] end)
           u.

(** The "I am now viewing data for" lines shown so far. *)
Definition viewing (u : list st_call) : list cell :=
  flat_map (fun c => match c with st_markdown_viewing v => [v] | _ => [] end)
           u.

(** The source lines of the error messages shown so far. *)
Definition errors (u : list st_call) : list nat :=
  flat_map (fun c => match c with st_error l => [l] | _ => [] end) u.

(** Ascending order of a list of strings, neighbour by neighbour. *)
Definition ascending (l : list string) : Prop :=
  Sorted (fun a b => String.leb a b = true) l.

(** The frame has a blank and a named client country. *)
Definition mixed_countries (df : DataFrame) : Prop :=
  In NaN (map client_country df) /\
  exists c, In (Some c) (map client_country df).

(** The three charts of a filtered frame, in page order. *)
Definition three_charts (filtered : DataFrame) : list figure :=
  [ px_scatter (market_analysis filtered);
    px_bar (country_counts filtered);
    px_pie (job_type_counts filtered) ].

(** The three metrics of a frame, in page order. *)
Definition three_metrics (df : DataFrame) : list (string * metric_value) :=
  [ ("Total Job Postings (Demand)", Count (total_jobs df));
    ("Average Project Price (USD)", Money (avg_price df));
    ("Unique Client Countries", Count (unique_countries df)) ].

(** Eleven client countries with one posting each. *)
Definition eleven_countries : DataFrame :=
  map (fun c => mkJobPosting (Some 100%Q) (Some c) (Some "Dev")
                             (Some (1 # 2)%Q) (Some "Fixed"))
      ["a"; "b"; "c"; "d"; "e"; "f"; "g"; "h"; "i"; "j"; "k"].

(** A frame with a blank and a named client country. *)
Definition blank_and_named : DataFrame :=
  [ mkJobPosting (Some 100%Q) NaN (Some "Dev") (Some (1 # 2)%Q) (Some "Fixed");
    mkJobPosting (Some 300%Q) (Some "US") (Some "Dev") (Some (1 # 2)%Q)
                 (Some "Fixed") ].

(** A frame whose client countries are all blank. *)
Definition all_blank : DataFrame :=
  [ mkJobPosting (Some 100%Q) NaN (Some "Dev") (Some (1 # 2)%Q) (Some "Fixed");
    mkJobPosting (Some 300%Q) NaN (Some "Writing") (Some (1 # 2)%Q)
                 (Some "Hourly") ].

(** A frame with blank [Price_USD] cells: one of the two "Dev" prices and
    the only "Writing" price are missing. *)
Definition blank_prices : DataFrame :=
  [ mkJobPosting None (Some "US") (Some "Dev") (Some (1 # 2)%Q) (Some "Fixed");
    mkJobPosting (Some 100%Q) (Some "US") (Some "Dev") (Some (1 # 2)%Q)
                 (Some "Hourly");
    mkJobPosting None (Some "US") (Some "Writing") (Some (8 # 10)%Q)
                 (Some "Fixed") ].

(** A frame whose only row has a blank [Price_USD] cell. *)
Definition blank_price_only : DataFrame :=
  [ mkJobPosting None (Some "US") (Some "Dev") (Some (1 # 2)%Q)
                 (Some "Fixed") ].

(** A frame with a negative [Price_USD] (a refund). *)
Definition negative_price : DataFrame :=
  [ mkJobPosting (Some (-50)%Q) (Some "US") (Some "Dev") (Some (1 # 2)%Q)
                 (Some "Fixed") ].

(** * Lemmas on the list operations *)

Section ListFacts.
Context {A : Type}.

Lemma getitem_mask_filter (f : A -> bool) (l : list A) :
  getitem_mask l (map f l) = filter f l.
Proof.
  induction l as [|x l IH]; simpl; [reflexivity|].
  rewrite IH. reflexivity.
Qed.

Lemma Subseq_filter (f : A -> bool) (l : list A) : Subseq (filter f l) l.
Proof.
  induction l as [|x l IH]; simpl; [constructor|].
  destruct (f x); auto with frame.
Qed.

Lemma filter_negb_length (f : A -> bool) (l : list A) :
  length (filter f l) + length (filter (fun x => negb (f x)) l) = length l.
Proof.
  induction l as [|x l IH]; simpl; [reflexivity|].
  destruct (f x); simpl; lia.
Qed.

Lemma Subseq_length (s l : list A) : Subseq s l -> length s <= length l.
Proof. induction 1; simpl; lia. Qed.

Lemma In_firstn (n : nat) (l : list A) (x : A) :
  In x (firstn n l) -> In x l.
Proof.
  intros H. rewrite <- (firstn_skipn n l). apply in_or_app. left; exact H.
Qed.

Lemma StronglySorted_firstn (R : A -> A -> Prop) (n : nat) (l : list A) :
  StronglySorted R l -> StronglySorted R (firstn n l).
Proof.
  intros H; revert n; induction H as [|x l Hs IH Hx]; intros [|n]; simpl;
    try constructor.
  - apply IH.
  - rewrite Forall_forall in *. intros y Hy.
    apply Hx. eapply In_firstn; eauto.
Qed.

Section Unique.
Variable same : A -> A -> bool.
Hypothesis same_spec : forall x y, same x y = true <-> x = y.

Lemma unique_by_In (x : A) (l : list A) :
  In x (unique_by same l) <-> In x l.
Proof.
  induction l as [|a l IH]; simpl; [tauto|].
  rewrite filter_In, IH.
  split.
  - intros [H | [H _]]; auto.
  - intros [H | H]; auto.
    destruct (same a x) eqn:E.
    + left. apply same_spec; assumption.
    + right. split; [assumption | reflexivity].
Qed.

Lemma unique_by_NoDup (l : list A) : NoDup (unique_by same l).
Proof.
  induction l as [|a l IH]; simpl; constructor.
  - rewrite filter_In. intros [_ H].
    assert (E : same a a = true) by (apply same_spec; reflexivity).
    rewrite E in H. discriminate.
  - apply NoDup_filter. assumption.
Qed.
End Unique.
End ListFacts.

(** ** Sorting *)

Lemma insert_str_perm (x : string) (l : list string) :
  Permutation (insert_str x l) (x :: l).
Proof.
  induction l as [|y l IH]; simpl; [reflexivity|].
  destruct (String.leb x y); [reflexivity|].
  rewrite IH. apply perm_swap.
Qed.

Lemma sort_str_perm (l : list string) : Permutation (sort_str l) l.
Proof.
  induction l as [|x l IH]; simpl; [reflexivity|].
  rewrite insert_str_perm. constructor. exact IH.
Qed.

Lemma insert_desc_perm (x : string * nat) (l : list (string * nat)) :
  Permutation (insert_desc x l) (x :: l).
Proof.
  induction l as [|y l IH]; simpl; [reflexivity|].
  destruct (Nat.ltb (snd x) (snd y)); [|reflexivity].
  rewrite IH. apply perm_swap.
Qed.

Lemma sort_values_desc_perm (s : list (string * nat)) :
  Permutation (sort_values_desc s) s.
Proof.
  induction s as [|x s IH]; simpl; [reflexivity|].
  rewrite insert_desc_perm. constructor. exact IH.
Qed.

Lemma insert_desc_sorted (x : string * nat) (l : list (string * nat)) :
  non_increasing l -> non_increasing (insert_desc x l).
Proof.
  unfold non_increasing.
  induction 1 as [|y l Hs IH Hy]; simpl.
  - repeat constructor.
  - destruct (Nat.ltb_spec (snd x) (snd y)) as [Hlt | Hge].
    + constructor; [exact IH|].
      apply (Permutation_Forall (Permutation_sym (insert_desc_perm x l))).
      constructor; [lia | exact Hy].
    + constructor; [constructor; assumption|].
      constructor; [exact Hge|].
      rewrite Forall_forall in *. intros z Hz.
      specialize (Hy z Hz). lia.
Qed.

Lemma sort_values_desc_sorted (s : list (string * nat)) :
  non_increasing (sort_values_desc s).
Proof.
  induction s as [|x s IH]; simpl.
  - constructor.
  - apply insert_desc_sorted. exact IH.
Qed.

(** ** Distinct values and counts *)

Lemma dropna_In (c : string) (col : list cell) :
  In c (dropna col) <-> In (Some c) col.
Proof.
  induction col as [|[s|] col IH]; simpl.
  - tauto.
  - rewrite IH. split; intros [H | H]; auto; left; congruence.
  - rewrite IH. split; [auto | intros [H | H]; [discriminate | exact H]].
Qed.

Lemma distinct_In (c : string) (col : list cell) :
  In c (distinct col) <-> In (Some c) col.
Proof.
  unfold distinct. rewrite (unique_by_In String.eqb String.eqb_eq).
  apply dropna_In.
Qed.

Lemma distinct_NoDup (col : list cell) : NoDup (distinct col).
Proof. apply (unique_by_NoDup String.eqb String.eqb_eq). Qed.

Lemma dropna_length (col : list cell) :
  length (dropna col) = length (filter is_str col).
Proof.
  induction col as [|[s|] col IH]; simpl; congruence.
Qed.

(** Summing a function over a duplicate-free list, one key split off. *)
Lemma list_sum_split_key (f : string -> nat) (x : string) (u : list string) :
  NoDup u ->
  list_sum (map f u) =
  (if in_dec string_dec x u then f x else 0) +
  list_sum (map f (filter (fun y => negb (String.eqb x y)) u)).
Proof.
  induction 1 as [|a u Ha Hu IH]; simpl; [reflexivity|].
  destruct (String.eqb_spec x a) as [->|Hne]; simpl.
  - destruct (string_dec a a) as [E|E]; [|congruence].
    rewrite IH. destruct (in_dec string_dec a u); [contradiction|]. lia.
  - destruct (string_dec a x) as [E|E]; [congruence|].
    rewrite IH. destruct (in_dec string_dec x u); lia.
Qed.

Lemma list_sum_map_ext_in (f g : string -> nat) (u : list string) :
  (forall k, In k u -> f k = g k) -> list_sum (map f u) = list_sum (map g u).
Proof.
  intros H. f_equal. apply map_ext_in. exact H.
Qed.

(** The counts of the distinct strings of a list add up to its length. *)
Lemma sum_count_occ_unique (l : list string) :
  list_sum (map (count_occ string_dec l) (unique_by String.eqb l)) = length l.
Proof.
  induction l as [|x l IH]; simpl; [reflexivity|].
  destruct (string_dec x x) as [E|E]; [clear E|congruence].
  pose proof (unique_by_NoDup String.eqb String.eqb_eq l) as Hnd.
  rewrite (list_sum_split_key (count_occ string_dec l) x _ Hnd) in IH.
  assert (Hx : (if in_dec string_dec x (unique_by String.eqb l)
                then count_occ string_dec l x else 0)
               = count_occ string_dec l x).
  { destruct (in_dec string_dec x (unique_by String.eqb l)) as [|Hn];
      [reflexivity|].
    symmetry. apply count_occ_not_In.
    rewrite <- (unique_by_In String.eqb String.eqb_eq). exact Hn. }
  rewrite Hx in IH.
  rewrite (list_sum_map_ext_in _ (count_occ string_dec l)).
  - simpl. rewrite <- IH. reflexivity.
  - intros k Hk.
    apply filter_In in Hk. destruct Hk as [_ Hk].
    destruct (string_dec x k) as [E|E]; [|reflexivity].
    subst k. rewrite String.eqb_refl in Hk. discriminate.
Qed.

Lemma value_counts_perm (col : list cell) :
  Permutation (value_counts col)
              (map (fun k => (k, count_str k col)) (distinct col)).
Proof. apply sort_values_desc_perm. Qed.

Lemma value_counts_sum (col : list cell) :
  sum_counts (value_counts col) = length (dropna col).
Proof.
  unfold sum_counts.
  rewrite (Permutation_map snd (value_counts_perm col)).
  rewrite map_map. simpl.
  unfold count_str, distinct.
  apply sum_count_occ_unique.
Qed.

Lemma value_counts_keys_NoDup (col : list cell) :
  NoDup (map fst (value_counts col)).
Proof.
  apply (Permutation_NoDup
           (l := map fst (map (fun k => (k, count_str k col)) (distinct col)))).
  - apply Permutation_map. symmetry. apply value_counts_perm.
  - rewrite map_map. simpl. rewrite map_id. apply distinct_NoDup.
Qed.

Lemma value_counts_length (col : list cell) :
  length (value_counts col) = nunique col.
Proof.
  rewrite (Permutation_length (value_counts_perm col)).
  rewrite length_map. reflexivity.
Qed.

Lemma value_counts_In (col : list cell) (c : string) :
  In (Some c) col -> In (c, count_str c col) (value_counts col).
Proof.
  intros H.
  apply (Permutation_in _ (Permutation_sym (value_counts_perm col))).
  apply in_map_iff. exists c. split; [reflexivity|].
  apply distinct_In. exact H.
Qed.

(** ** Grouping and merging *)

Lemma group_rows_spec (key : JobPosting -> cell) (k : string)
  (df : DataFrame) (r : JobPosting) :
  In r (group_rows key k df) <-> In r df /\ key r = Some k.
Proof.
  unfold group_rows. rewrite filter_In.
  destruct (key r) as [s|]; simpl.
  - rewrite String.eqb_eq. split; intros [H1 H2]; split; congruence.
  - split; intros [_ H]; discriminate.
Qed.

Lemma group_rows_nonempty (key : JobPosting -> cell) (k : string)
  (df : DataFrame) :
  In (Some k) (map key df) <-> group_rows key k df <> [].
Proof.
  split.
  - intros H. apply in_map_iff in H. destruct H as [r [Hk Hr]].
    assert (Hin : In r (group_rows key k df))
      by (apply group_rows_spec; split; assumption).
    intros E. rewrite E in Hin. exact Hin.
  - intros H. destruct (group_rows key k df) as [|r rows] eqn:E;
      [congruence|].
    assert (Hin : In r (group_rows key k df)) by (rewrite E; left; reflexivity).
    apply group_rows_spec in Hin. destruct Hin as [Hin Hk].
    apply in_map_iff. exists r. split; assumption.
Qed.

Lemma notna_present (col : list num) : notna col = present col.
Proof.
  unfold present.
  induction col as [|[q|] col IH]; simpl; [reflexivity | f_equal | ]; exact IH.
Qed.

Lemma fold_left_Qplus (l : list Q) (a : Q) :
  (fold_left Qplus l a == a + Qsum l)%Q.
Proof.
  revert a. induction l as [|x l IH]; intros a; simpl.
  - ring.
  - rewrite IH. ring.
Qed.

Lemma total_Qsum (l : list Q) : (total l == Qsum l)%Q.
Proof. unfold total. rewrite fold_left_Qplus. ring. Qed.

Lemma inject_Z_length_pos {A : Type} (l : list A) :
  l <> [] -> (0 < inject_Z (Z.of_nat (length l)))%Q.
Proof.
  destruct l as [|x l]; [congruence|]. intros _.
  unfold Qlt. simpl. lia.
Qed.

(** What [mean] computes is the arithmetic mean of the values present. *)
Lemma mean_is_mean (col : list num) : is_mean_of (present col) (mean col).
Proof.
  unfold mean. rewrite notna_present.
  destruct (present col) as [|q l] eqn:E; simpl; [reflexivity|].
  split; [discriminate|].
  rewrite total_Qsum.
  assert (Hpos : (0 < inject_Z (Z.of_nat (length (q :: l))))%Q)
    by (apply inject_Z_length_pos; discriminate).
  rewrite Qmult_comm. apply Qmult_div_r.
  intros E0. rewrite E0 in Hpos. apply (Qlt_irrefl 0). exact Hpos.
Qed.

Lemma group_rows_in_category (c : string) (D : DataFrame) :
  group_rows Skill_Category c D = filter (in_category c) D.
Proof.
  unfold group_rows. apply filter_ext. intros r.
  unfold in_category. destruct (Skill_Category r); reflexivity.
Qed.

Lemma group_rows_from_country (c : string) (D : DataFrame) :
  group_rows client_country c D = filter (from_country c) D.
Proof.
  unfold group_rows. apply filter_ext. intros r.
  unfold from_country. destruct (client_country r); reflexivity.
Qed.

Lemma groupby_mean_keys (key : JobPosting -> cell) (val : JobPosting -> num)
  (df : DataFrame) :
  map fst (groupby_mean key val df) = sort_str (distinct (map key df)).
Proof.
  unfold groupby_mean. rewrite map_map. simpl. apply map_id.
Qed.

Lemma sorted_keys_NoDup (col : list cell) : NoDup (sort_str (distinct col)).
Proof.
  apply (Permutation_NoDup (Permutation_sym (sort_str_perm _))).
  apply distinct_NoDup.
Qed.

Lemma sorted_keys_In (col : list cell) (c : string) :
  In c (sort_str (distinct col)) <-> In (Some c) col.
Proof.
  rewrite <- distinct_In. split; apply Permutation_in.
  - apply sort_str_perm.
  - symmetry. apply sort_str_perm.
Qed.

Section Merge.
Variables f g : string -> num.

(** In a table with one row per key, selecting a key gives its row. *)
Lemma filter_key_single (ks : list string) (k : string) :
  NoDup ks -> In k ks ->
  filter (fun r : string * num => String.eqb (fst r) k)
         (map (fun k' => (k', g k')) ks)
  = [(k, g k)].
Proof.
  induction 1 as [|a ks Ha Hnd IH]; simpl; [tauto|].
  intros [-> | Hin].
  - rewrite String.eqb_refl. f_equal.
    clear IH. induction ks as [|b ks IH']; simpl; [reflexivity|].
    destruct (String.eqb_spec b k) as [->|Hne].
    + exfalso. apply Ha. left. reflexivity.
    + apply IH'.
      * intros H. apply Ha. right. exact H.
      * inversion Hnd; assumption.
  - destruct (String.eqb_spec a k) as [->|Hne]; [contradiction|].
    apply IH. exact Hin.
Qed.

(** The inner join of two tables over one duplicate-free key list pairs
    the two values of every key, once, in key order. *)
Lemma merge_same_keys (ks : list string) :
  NoDup ks ->
  merge (map (fun k => (k, f k)) ks) (map (fun k => (k, g k)) ks)
  = map (fun k => (k, f k, g k)) ks.
Proof.
  intros Hnd. unfold merge.
  assert (H : forall ls, incl ls ks ->
    flat_map
      (fun l : string * num =>
         map (fun r : string * num => (fst l, snd l, snd r))
             (filter (fun r : string * num => String.eqb (fst r) (fst l))
                     (map (fun k => (k, g k)) ks)))
      (map (fun k => (k, f k)) ls)
    = map (fun k => (k, f k, g k)) ls).
  { induction ls as [|l ls IH]; intros Hincl; simpl; [reflexivity|].
    rewrite filter_key_single;
      [| exact Hnd | apply Hincl; left; reflexivity].
    simpl. f_equal. apply IH.
    intros x Hx. apply Hincl. right. exact Hx. }
  apply H. apply incl_refl.
Qed.

Lemma lookup3_present (ks : list string) (c : string) :
  In c ks ->
  lookup3 c (map (fun k => (k, f k, g k)) ks) = Some (f c, g c).
Proof.
  unfold lookup3.
  induction ks as [|k ks IH]; simpl; [tauto|].
  unfold key3 at 1; simpl.
  destruct (String.eqb_spec k c) as [->|Hne]; [reflexivity|].
  intros [H | H]; [congruence | apply IH; exact H].
Qed.

Lemma lookup3_absent (ks : list string) (c : string) :
  ~ In c ks ->
  lookup3 c (map (fun k => (k, f k, g k)) ks) = None.
Proof.
  unfold lookup3.
  induction ks as [|k ks IH]; simpl; [reflexivity|].
  unfold key3 at 1; simpl.
  destruct (String.eqb_spec k c) as [->|Hne]; [tauto|].
  intros H. apply IH. tauto.
Qed.

Lemma key3_map (ks : list string) :
  map key3 (map (fun k => (k, f k, g k)) ks) = ks.
Proof. rewrite map_map. unfold key3. simpl. apply map_id. Qed.
End Merge.

(** The merged table, row by row: the sorted distinct categories, each with
    the two means of its group. *)
Lemma market_analysis_rows (df : DataFrame) :
  market_analysis df =
  map (fun k =>
         (k,
          mean (map Price_USD (group_rows Skill_Category k df)),
          mean (map Freelancer_Friction_Index
                    (group_rows Skill_Category k df))))
      (sort_str (distinct (map Skill_Category df))).
Proof.
  unfold market_analysis, avg_price_by_skill, avg_friction_by_skill,
    groupby_mean.
  apply (merge_same_keys
           (fun k => mean (map Price_USD (group_rows Skill_Category k df)))
           (fun k => mean (map Freelancer_Friction_Index
                               (group_rows Skill_Category k df)))).
  apply sorted_keys_NoDup.
Qed.

(** ** The script's effect on the session *)

Lemma keeps_ret {A : Type} (a : A) : keeps_overview (ret a).
Proof. intros s. reflexivity. Qed.

Lemma keeps_raise {A : Type} (e : exn) : keeps_overview (@raise A e).
Proof. intros s. reflexivity. Qed.

Lemma keeps_st (c : st_call) : keeps_overview (st c).
Proof. intros []. reflexivity. Qed.

Lemma keeps_set_selected_country (v : cell) :
  keeps_overview (set_selected_country v).
Proof. intros []. reflexivity. Qed.

Lemma keeps_set_df_filtered (v : DataFrame) :
  keeps_overview (set_df_filtered v).
Proof. intros []. reflexivity. Qed.

Lemma keeps_set_market_analysis (v : list (string * num * num)) :
  keeps_overview (set_market_analysis v).
Proof. intros []. reflexivity. Qed.

Lemma keeps_set_country_counts (v : list (string * nat)) :
  keeps_overview (set_country_counts v).
Proof. intros []. reflexivity. Qed.

Lemma keeps_set_job_type_counts (v : list (string * nat)) :
  keeps_overview (set_job_type_counts v).
Proof. intros []. reflexivity. Qed.

Lemma keeps_bind {A B : Type} (c : Script A) (k : A -> Script B) :
  keeps_overview c -> (forall a, keeps_overview (k a)) ->
  keeps_overview (bind c k).
Proof.
  intros Hc Hk s. unfold bind.
  specialize (Hc s).
  destruct (c s) as [[a| |e] s']; simpl in *.
  - rewrite Hk. exact Hc.
  - exact Hc.
  - exact Hc.
Qed.

Lemma keeps_when (b : bool) (c : Script unit) :
  keeps_overview c -> keeps_overview (when b c).
Proof. intros H. destruct b; [exact H | apply keeps_ret]. Qed.

Lemma keeps_sorted (l : list cell) : keeps_overview (sorted l).
Proof.
  unfold sorted.
  destruct (forallb is_str l); [apply keeps_ret|].
  destruct (forallb is_nan l); [apply keeps_ret | apply keeps_raise].
Qed.

Lemma keeps_sidebar_selectbox (options : list cell) (choice : nat) :
  keeps_overview (sidebar_selectbox options choice).
Proof.
  unfold sidebar_selectbox.
  apply keeps_bind; [apply keeps_st | intros; apply keeps_ret].
Qed.

Lemma keeps_scatter (t : list (string * num * num)) :
  keeps_overview (scatter t).
Proof.
  unfold scatter.
  destruct (sizes_ok t); [apply keeps_ret | apply keeps_raise].
Qed.

#[local] Hint Resolve keeps_scatter keeps_ret keeps_raise keeps_st
  keeps_set_selected_country keeps_set_df_filtered keeps_set_market_analysis
  keeps_set_country_counts keeps_set_job_type_counts keeps_when keeps_sorted
  keeps_sidebar_selectbox : frame.

Ltac keeps_steps :=
  repeat (apply keeps_bind; [auto with frame | intros]); auto with frame.

Lemma keeps_section2 (df : DataFrame) (choice : nat) :
  keeps_overview (section2_market_tightness df choice).
Proof. unfold section2_market_tightness. keeps_steps. Qed.

Lemma keeps_section3 (filtered : DataFrame) :
  keeps_overview (section3_regional filtered).
Proof. unfold section3_regional. keeps_steps. Qed.

(** Section 1 always runs to its end and binds the three overview
    variables. *)
Lemma section1_overview_run (df : DataFrame) (s : Session) :
  exists s', section1_overview df s = (Ok tt, s') /\
             overview s' =
             (Some (total_jobs df), Some (avg_price df),
              Some (unique_countries df)).
Proof. destruct s. eexists. split; reflexivity. Qed.

(** A run on a frame with at least one row passes the gate of line 33. *)
Lemma run_nonempty (r : JobPosting) (df : DataFrame) (choice : nat) :
  run (inr (r :: df)) choice =
  bind (section1_overview (r :: df))
       (fun _ => bind (section2_market_tightness (r :: df) choice)
                      section3_regional)
       (mkSession [st_fixed 11] (Some (r :: df))
                  None None None None None None None None).
Proof. reflexivity. Qed.

Lemma run_nonempty_overview (r : JobPosting) (df : DataFrame) (choice : nat) :
  overview (snd (run (inr (r :: df)) choice)) =
  (Some (total_jobs (r :: df)), Some (avg_price (r :: df)),
   Some (unique_countries (r :: df))).
Proof.
  rewrite run_nonempty.
  set (s0 := mkSession _ _ _ _ _ _ _ _ _ _).
  destruct (section1_overview_run (r :: df) s0) as [s1 [Hrun Hov]].
  unfold bind at 1. rewrite Hrun.
  rewrite <- Hov.
  apply (keeps_bind (section2_market_tightness (r :: df) choice)
                    section3_regional).
  - apply keeps_section2.
  - apply keeps_section3.
Qed.

(** A blank client country next to a named one: building the options of the
    selection compares a NaN with a [str], and the run is left by a
    [TypeError] after the overview. *)
Example run_blank_and_named_country :
  fst (run (inr blank_and_named) 0) = Raised TypeError.
Proof. reflexivity. Qed.

(** The three ways the loader fails. *)
Lemma run_file_missing (choice : nat) :
  run (inl FileNotFoundError) choice =
  (Stopped,
   mkSession [st_fixed 11; st_error 27] (Some [])
             None None None None None None None None).
Proof. reflexivity. Qed.

Lemma run_no_rows (choice : nat) :
  run (inr []) choice =
  (Stopped,
   mkSession [st_fixed 11] (Some [])
             None None None None None None None None).
Proof. reflexivity. Qed.

Lemma run_read_raises (e : exn) (choice : nat) :
  e <> FileNotFoundError ->
  run (inl e) choice =
  (Raised e,
   mkSession [st_fixed 11] None None None None None None None None None).
Proof. destruct e; intros H; [congruence | reflexivity ..]. Qed.

(** ** Distinct values, blanks and order *)

Lemma cell_same_spec (x y : cell) : cell_same x y = true <-> x = y.
Proof.
  destruct x as [a|], y as [b|]; simpl.
  - rewrite String.eqb_eq. split; congruence.
  - split; discriminate.
  - split; discriminate.
  - split; reflexivity.
Qed.

Lemma unique_In (c : cell) (col : list cell) :
  In c (unique col) <-> In c col.
Proof. apply (unique_by_In cell_same cell_same_spec). Qed.

Lemma unique_NoDup (col : list cell) : NoDup (unique col).
Proof. apply (unique_by_NoDup cell_same cell_same_spec). Qed.

Lemma forallb_unique (f : cell -> bool) (col : list cell) :
  forallb f (unique col) = forallb f col.
Proof.
  apply Bool.eq_iff_eq_true. rewrite !forallb_forall.
  split; intros H x Hx; apply H; apply unique_In; exact Hx.
Qed.

Lemma dropna_filter (f : cell -> bool) (g : string -> bool) (l : list cell) :
  (forall s, f (Some s) = g s) ->
  dropna (filter f l) = filter g (dropna l).
Proof.
  intros Hfg. induction l as [|[s|] l IH]; simpl.
  - reflexivity.
  - rewrite Hfg. destruct (g s); simpl; rewrite IH; reflexivity.
  - destruct (f None); simpl; exact IH.
Qed.

(** The strings among the distinct cells are the distinct strings. *)
Lemma dropna_unique (col : list cell) : dropna (unique col) = distinct col.
Proof.
  unfold unique, distinct.
  induction col as [|[s|] col IH]; simpl.
  - reflexivity.
  - f_equal. rewrite <- IH.
    apply dropna_filter. intros t. reflexivity.
  - rewrite <- IH.
    rewrite (dropna_filter _ (fun _ => true)) by reflexivity.
    clear IH. induction (dropna (unique_by cell_same col)) as [|t l IH'];
      simpl; congruence.
Qed.

Lemma not_all_str (col : list cell) :
  forallb is_str col = false <-> In NaN col.
Proof.
  induction col as [|[s|] col IH]; simpl.
  - split; [discriminate | tauto].
  - rewrite IH. split; [auto | intros [H | H]; [discriminate | exact H]].
  - split; [left; reflexivity | reflexivity].
Qed.

Lemma not_all_nan (col : list cell) :
  forallb is_nan col = false <-> exists c, In (Some c) col.
Proof.
  induction col as [|[s|] col IH]; simpl.
  - split; [discriminate | intros [c []]].
  - split; [intros _; exists s; left; reflexivity | reflexivity].
  - rewrite IH. split; intros [c H]; exists c.
    + right; exact H.
    + destruct H as [H | H]; [discriminate | exact H].
Qed.

Lemma all_str_dropna (col : list cell) :
  forallb is_str col = true -> map Some (dropna col) = col.
Proof.
  induction col as [|[s|] col IH]; simpl; intros H.
  - reflexivity.
  - rewrite IH by exact H. reflexivity.
  - discriminate.
Qed.

Lemma insert_str_ascending (x : string) (l : list string) :
  ascending l -> ascending (insert_str x l).
Proof.
  unfold ascending.
  induction 1 as [|y l Hs IH Hy]; simpl.
  - repeat constructor.
  - destruct (String.leb x y) eqn:E.
    + constructor; [constructor; assumption|].
      constructor. exact E.
    + constructor; [exact IH|].
      destruct (String.leb_total x y) as [Hxy | Hyx]; [congruence|].
      destruct l as [|z l]; simpl.
      * constructor. exact Hyx.
      * destruct (String.leb x z); constructor; [exact Hyx|].
        inversion Hy; assumption.
Qed.

Lemma sort_str_ascending (l : list string) : ascending (sort_str l).
Proof.
  induction l as [|x l IH]; simpl.
  - constructor.
  - apply insert_str_ascending. exact IH.
Qed.

(** A table that is already in descending order is left as it is. *)
Lemma sort_values_desc_sorted_id (s : list (string * nat)) :
  non_increasing s -> sort_values_desc s = s.
Proof.
  unfold non_increasing.
  induction 1 as [|x l Hs IH Hx]; simpl; [reflexivity|].
  fold (sort_values_desc l). rewrite IH.
  destruct l as [|y l]; simpl; [reflexivity|].
  inversion Hx as [|? ? Hxy _]; subst.
  destruct (Nat.ltb_spec (snd x) (snd y)); [lia | reflexivity].
Qed.

(** ** Every path through the script *)

Lemma error_shown_errors (s : Session) :
  error_shown s <-> errors (ui s) <> [].
Proof.
  unfold error_shown, errors. split.
  - intros [line H] E.
    assert (Hin : In line
              (flat_map (fun c => match c with st_error l => [l] | _ => [] end)
                        (ui s))).
    { apply in_flat_map. exists (st_error line). split; [exact H|].
      left. reflexivity. }
    rewrite E in Hin. exact Hin.
  - intros H.
    destruct (flat_map _ (ui s)) as [|line l] eqn:E; [congruence|].
    assert (Hin : In line
              (flat_map (fun c => match c with st_error l => [l] | _ => [] end)
                        (ui s))) by (rewrite E; left; reflexivity).
    apply in_flat_map in Hin. destruct Hin as [c [Hc Hl]].
    exists line. destruct c; simpl in Hl; try contradiction.
    destruct Hl as [-> | []]. exact Hc.
Qed.

(** [sorted] on the distinct cells of a column: the three cases. *)
Lemma sorted_cases (col : list cell) :
  (forallb is_str col = true /\
   sorted (unique col) = ret (map Some (sort_str (distinct col)))) \/
  (forallb is_str col = false /\ forallb is_nan col = true /\
   sorted (unique col) = ret (unique col)) \/
  (forallb is_str col = false /\ forallb is_nan col = false /\
   sorted (unique col) = raise TypeError).
Proof.
  unfold sorted. rewrite !forallb_unique, dropna_unique.
  destruct (forallb is_str col); [left; auto|].
  destruct (forallb is_nan col); right; [left | right]; auto.
Qed.

(** The run when the options can be built and plotly accepts the marker
    sizes: all sections run. *)
Lemma run_selection_ok (r : JobPosting) (df : DataFrame) (choice : nat)
  (countries : list cell) :
  sorted (unique (map client_country (r :: df))) = ret countries ->
  sizes_ok
    (market_analysis
       (df_filtered (r :: df)
          (nth choice (Some All_Countries :: countries)
               (Some All_Countries)))) = true ->
  exists s,
    run (inr (r :: df)) choice = (Ok tt, s) /\
    g_df s = Some (r :: df) /\
    overview s = (Some (total_jobs (r :: df)), Some (avg_price (r :: df)),
                  Some (unique_countries (r :: df))) /\
    g_selected_country s =
      Some (nth choice (Some All_Countries :: countries)
                (Some All_Countries)) /\
    g_df_filtered s =
      Some (df_filtered (r :: df)
              (nth choice (Some All_Countries :: countries)
                   (Some All_Countries))) /\
    g_market_analysis s =
      Some (market_analysis
              (df_filtered (r :: df)
                 (nth choice (Some All_Countries :: countries)
                      (Some All_Countries)))) /\
    g_country_counts s =
      Some (country_counts
              (df_filtered (r :: df)
                 (nth choice (Some All_Countries :: countries)
                      (Some All_Countries)))) /\
    g_job_type_counts s =
      Some (job_type_counts
              (df_filtered (r :: df)
                 (nth choice (Some All_Countries :: countries)
                      (Some All_Countries)))) /\
    charts (ui s) =
      three_charts
        (df_filtered (r :: df)
           (nth choice (Some All_Countries :: countries)
                (Some All_Countries))) /\
    metrics (ui s) = three_metrics (r :: df) /\
    selectboxes (ui s) = [Some All_Countries :: countries] /\
    viewing (ui s) =
      (if cell_eqb (nth choice (Some All_Countries :: countries)
                        (Some All_Countries))
                   (Some All_Countries)
       then []
       else [nth choice (Some All_Countries :: countries)
                 (Some All_Countries)]) /\
    errors (ui s) = [].
Proof.
  intros H Hok.
  rewrite run_nonempty.
  unfold section1_overview, section2_market_tightness, section3_regional.
  rewrite H.
  cbv [bind ret st set_overview set_selected_country set_df_filtered
         set_market_analysis set_country_counts set_job_type_counts
         sidebar_selectbox when hd scatter].
  set (sel := nth choice _ _) in *.
  destruct (cell_eqb sel (Some All_Countries)); cbv [negb]; rewrite Hok;
    eexists; (split; [reflexivity|]); repeat split.
Qed.

(** The run when the options can be built and plotly rejects a marker size:
    it is left by the [ValueError] of [px.scatter], with the selection, the
    filtered frame and the category table bound and no chart drawn. *)
Lemma run_selection_scatter_raises (r : JobPosting) (df : DataFrame)
  (choice : nat) (countries : list cell) :
  sorted (unique (map client_country (r :: df))) = ret countries ->
  sizes_ok
    (market_analysis
       (df_filtered (r :: df)
          (nth choice (Some All_Countries :: countries)
               (Some All_Countries)))) = false ->
  exists s,
    run (inr (r :: df)) choice = (Raised ValueError, s) /\
    g_df s = Some (r :: df) /\
    overview s = (Some (total_jobs (r :: df)), Some (avg_price (r :: df)),
                  Some (unique_countries (r :: df))) /\
    g_selected_country s =
      Some (nth choice (Some All_Countries :: countries)
                (Some All_Countries)) /\
    g_df_filtered s =
      Some (df_filtered (r :: df)
              (nth choice (Some All_Countries :: countries)
                   (Some All_Countries))) /\
    g_market_analysis s =
      Some (market_analysis
              (df_filtered (r :: df)
                 (nth choice (Some All_Countries :: countries)
                      (Some All_Countries)))) /\
    g_country_counts s = None /\
    g_job_type_counts s = None /\
    charts (ui s) = [] /\
    metrics (ui s) = three_metrics (r :: df) /\
    selectboxes (ui s) = [Some All_Countries :: countries] /\
    viewing (ui s) =
      (if cell_eqb (nth choice (Some All_Countries :: countries)
                        (Some All_Countries))
                   (Some All_Countries)
       then []
       else [nth choice (Some All_Countries :: countries)
                 (Some All_Countries)]) /\
    errors (ui s) = [].
Proof.
  intros H Hbad.
  rewrite run_nonempty.
  unfold section1_overview, section2_market_tightness, section3_regional.
  rewrite H.
  cbv [bind ret raise st set_overview set_selected_country set_df_filtered
         set_market_analysis sidebar_selectbox when hd scatter].
  set (sel := nth choice _ _) in *.
  destruct (cell_eqb sel (Some All_Countries)); cbv [negb]; rewrite Hbad;
    eexists; (split; [reflexivity|]); repeat split.
Qed.

(** The run when the options cannot be built: it is left by the
    [TypeError] after the overview, before anything is selected. *)
Lemma run_selection_raises (r : JobPosting) (df : DataFrame) (choice : nat) :
  sorted (unique (map client_country (r :: df))) = raise TypeError ->
  exists s,
    run (inr (r :: df)) choice = (Raised TypeError, s) /\
    g_df s = Some (r :: df) /\
    overview s = (Some (total_jobs (r :: df)), Some (avg_price (r :: df)),
                  Some (unique_countries (r :: df))) /\
    g_selected_country s = None /\
    g_df_filtered s = None /\
    g_market_analysis s = None /\
    g_country_counts s = None /\
    g_job_type_counts s = None /\
    charts (ui s) = [] /\
    metrics (ui s) = three_metrics (r :: df) /\
    selectboxes (ui s) = [] /\
    viewing (ui s) = [] /\
    errors (ui s) = [].
Proof.
  intros H.
  rewrite run_nonempty.
  unfold section1_overview, section2_market_tightness, section3_regional.
  rewrite H.
  cbv [bind ret raise st set_overview].
  eexists; (split; [reflexivity|]); repeat split.
Qed.

Lemma mixed_countries_iff (D : DataFrame) :
  mixed_countries D <->
  forallb is_str (map client_country D) = false /\
  forallb is_nan (map client_country D) = false.
Proof.
  unfold mixed_countries. rewrite not_all_str, not_all_nan. reflexivity.
Qed.

(** The two ways a run goes on after the overview. *)
Lemma run_nonempty_cases (r : JobPosting) (df : DataFrame) :
  (~ mixed_countries (r :: df) /\
   exists countries,
     sorted (unique (map client_country (r :: df))) = ret countries) \/
  (mixed_countries (r :: df) /\
   sorted (unique (map client_country (r :: df))) = raise TypeError).
Proof.
  rewrite mixed_countries_iff.
  destruct (sorted_cases (map client_country (r :: df)))
    as [[H1 H] | [[H1 [H2 H]] | [H1 [H2 H]]]].
  - left. split; [intros [E _]; congruence | eauto].
  - left. split; [intros [_ E]; congruence | eauto].
  - right. auto.
Qed.

(** ** Entries of a count table *)

Lemma value_counts_keys (col : list cell) (k : string) :
  In k (map fst (value_counts col)) <-> In (Some k) col.
Proof.
  rewrite <- distinct_In.
  assert (P : Permutation (map fst (value_counts col)) (distinct col)).
  { rewrite (Permutation_map fst (value_counts_perm col)).
    rewrite map_map. simpl. rewrite map_id. reflexivity. }
  split; apply Permutation_in; [exact P | symmetry; exact P].
Qed.

Lemma value_counts_entry (col : list cell) (k : string) (n : nat) :
  In (k, n) (value_counts col) -> n = count_str k col /\ In (Some k) col.
Proof.
  intros H.
  apply (Permutation_in _ (value_counts_perm col)) in H.
  apply in_map_iff in H. destruct H as [k' [E Hk]].
  inversion E; subst. split; [reflexivity|].
  apply distinct_In. exact Hk.
Qed.

Lemma count_str_pos (col : list cell) (k : string) :
  In (Some k) col -> 1 <= count_str k col.
Proof.
  intros H. unfold count_str.
  apply (count_occ_In string_dec). apply dropna_In. exact H.
Qed.

(** * The properties of the specification *)

(** ** Filter stage *)

Lemma cell_eqb_eq (a : cell) (v : string) :
  cell_eqb a (Some v) = true <-> a = Some v.
Proof.
  destruct a as [s|]; simpl.
  - rewrite String.eqb_eq. split; congruence.
  - split; discriminate.
Qed.

Lemma df_filtered_country (D : DataFrame) (v : string) :
  v <> All_Countries ->
  df_filtered D (Some v) =
  filter (fun r => cell_eqb (client_country r) (Some v)) D.
Proof.
  intros Hv. unfold df_filtered, country_mask. simpl.
  destruct (String.eqb_spec v All_Countries) as [E|_]; [contradiction|].
  simpl. rewrite map_map. apply getitem_mask_filter.
Qed.

(** C1, as stated, fails where the selected country is spelled like the
    sentinel: a frame with a client country "All Countries" and a client
    country "US".  "All Countries" is present in the column, yet the filter
    returns the whole frame, the "US" row included. *)
Lemma df_filtered_sentinel_collision :
  In (Some "All Countries") (map client_country sentinel_rows) /\
  df_filtered sentinel_rows (Some "All Countries") = sentinel_rows /\
  ~ Forall (fun r => client_country r = Some "All Countries")
           (df_filtered sentinel_rows (Some "All Countries")).
Proof.
  split; [left; reflexivity|].
  split; [reflexivity|].
  intros H. simpl in H.
  inversion H as [|r l _ H2]; subst.
  inversion H2 as [|r' l' H3 _]; subst.
  discriminate H3.
Qed.

(** C1 (amended): for every frame [D] and every country [v] present in its
    [client_country] column and different from the sentinel "All Countries",
    the filter returns exactly the rows of [D] whose [client_country] is [v],
    in their original order: it is the order-preserving selection of those
    rows, every returned row has country [v], every row of [D] with country
    [v] is returned, there is at least one, and there are at most as many
    rows as in [D]. *)
Theorem df_filtered_selects_country (D : DataFrame) (v : string) :
  v <> All_Countries ->
  In (Some v) (map client_country D) ->
  df_filtered D (Some v) =
    filter (fun r => cell_eqb (client_country r) (Some v)) D /\
  Forall (fun r => client_country r = Some v) (df_filtered D (Some v)) /\
  (forall r, In r D -> client_country r = Some v ->
             In r (df_filtered D (Some v))) /\
  Subseq (df_filtered D (Some v)) D /\
  df_filtered D (Some v) <> [] /\
  length (df_filtered D (Some v)) <= length D.
Proof.
  intros Hv Hin.
  rewrite (df_filtered_country D v Hv).
  split; [reflexivity|].
  split.
  { apply Forall_forall. intros r Hr.
    apply filter_In in Hr. apply cell_eqb_eq. apply Hr. }
  split.
  { intros r Hr Hc. apply filter_In. split; [exact Hr|].
    apply cell_eqb_eq. exact Hc. }
  split; [apply Subseq_filter|].
  split.
  { apply in_map_iff in Hin. destruct Hin as [r [Hc Hr]].
    intros E.
    assert (H : In r (filter (fun r => cell_eqb (client_country r) (Some v)) D)).
    { apply filter_In. split; [exact Hr | apply cell_eqb_eq; exact Hc]. }
    rewrite E in H. exact H. }
  apply Subseq_length. apply Subseq_filter.
Qed.

Lemma df_filtered_selects_country_witness :
  "US" <> All_Countries /\
  In (Some "US") (map client_country scenario) /\
  length (df_filtered scenario (Some "US")) <= length scenario.
Proof.
  assert (H1 : "US" <> All_Countries) by discriminate.
  assert (H2 : In (Some "US") (map client_country scenario))
    by (left; reflexivity).
  split; [exact H1|]. split; [exact H2|].
  apply (df_filtered_selects_country scenario "US" H1 H2).
Defined.

(** C2: with the sentinel selection "All Countries" the filter is the
    identity: the same rows in the same order. *)
Theorem df_filtered_all_countries (D : DataFrame) :
  df_filtered D (Some "All Countries") = D.
Proof. reflexivity. Qed.

(** ** Category metrics *)

(** C3, as stated, fails on a frame with blank [Price_USD] cells.  "Writing"
    has a row, but its only price is blank: its entry holds NaN, not a mean
    price.  "Dev" has two rows, one with a blank price: its entry is the
    price of the other row alone. *)
Lemma category_metrics_blank_price :
  In (Some "Writing") (map Skill_Category blank_prices) /\
  (exists f,
     lookup3 "Writing" (market_analysis blank_prices) = Some (None, f)) /\
  ~ (exists p f : Q,
       lookup3 "Writing" (market_analysis blank_prices)
         = Some (Some p, Some f)) /\
  length (filter (in_category "Dev") blank_prices) = 2 /\
  (exists p f,
     lookup3 "Dev" (market_analysis blank_prices) = Some (Some p, f) /\
     (p == 100)%Q).
Proof.
  split; [right; right; left; reflexivity|].
  split; [eexists; vm_compute; reflexivity|].
  split.
  { intros [p [f H]]. vm_compute in H. discriminate H. }
  split; [reflexivity|].
  eexists. eexists. split; [vm_compute; reflexivity|].
  reflexivity.
Qed.

(** C3 (amended): the category metrics map each [Skill_Category] that has at
    least one row to the pair (arithmetic mean of the [Price_USD] values
    present in the rows of that category, arithmetic mean of the
    [Freelancer_Friction_Index] values present in the same rows), a mean
    being NaN when the rows hold no such value, in exactly one entry; a
    category with no row has no entry. *)
Theorem market_analysis_category_metrics (D : DataFrame) (c : string) :
  let rows := filter (in_category c) D in
  (In (Some c) (map Skill_Category D) ->
     rows <> [] /\
     (exists p f,
        lookup3 c (market_analysis D) = Some (p, f) /\
        is_mean_of (present (map Price_USD rows)) p /\
        is_mean_of (present (map Freelancer_Friction_Index rows)) f) /\
     count_occ string_dec (map key3 (market_analysis D)) c = 1) /\
  (~ In (Some c) (map Skill_Category D) ->
     lookup3 c (market_analysis D) = None /\
     ~ In c (map key3 (market_analysis D))).
Proof.
  intros rows. unfold rows. rewrite <- group_rows_in_category.
  rewrite market_analysis_rows. rewrite key3_map.
  split.
  - intros Hin.
    split; [apply group_rows_nonempty; exact Hin|]. split.
    + rewrite lookup3_present by (apply sorted_keys_In; exact Hin).
      eexists. eexists. split; [reflexivity|].
      split; apply mean_is_mean.
    + apply NoDup_count_occ'; [apply sorted_keys_NoDup|].
      apply sorted_keys_In. exact Hin.
  - intros Hout.
    assert (Hk : ~ In c (sort_str (distinct (map Skill_Category D))))
      by (rewrite sorted_keys_In; exact Hout).
    split; [apply lookup3_absent; exact Hk | exact Hk].
Qed.

Lemma market_analysis_category_metrics_witness :
  In (Some "Dev") (map Skill_Category scenario) /\
  count_occ string_dec (map key3 (market_analysis scenario)) "Dev" = 1 /\
  ~ In (Some "Design") (map Skill_Category scenario) /\
  lookup3 "Design" (market_analysis scenario) = None.
Proof.
  assert (H1 : In (Some "Dev") (map Skill_Category scenario))
    by (right; left; reflexivity).
  assert (H2 : ~ In (Some "Design") (map Skill_Category scenario)).
  { simpl. intros [H | [H | [H | H]]]; try discriminate H; exact H. }
  split; [exact H1|]. split.
  - apply (proj1 (market_analysis_category_metrics scenario "Dev") H1).
  - split; [exact H2|].
    apply (proj2 (market_analysis_category_metrics scenario "Design") H2).
Defined.

(** C9: the merged table has exactly one row per distinct [Skill_Category]
    of the frame.  The two grouped tables have the same key column, so the
    inner merge drops no category and repeats none, and each row carries the
    mean price and the mean friction of its own category. *)
Theorem market_analysis_one_row_per_category (D : DataFrame) :
  map fst (avg_price_by_skill D) = map fst (avg_friction_by_skill D) /\
  NoDup (map key3 (market_analysis D)) /\
  (forall c, In c (map key3 (market_analysis D)) <->
             In (Some c) (map Skill_Category D)) /\
  length (market_analysis D) = nunique (map Skill_Category D) /\
  (forall c p f, In (c, p, f) (market_analysis D) <->
                 In (c, p) (avg_price_by_skill D) /\
                 In (c, f) (avg_friction_by_skill D)).
Proof.
  split.
  { unfold avg_price_by_skill, avg_friction_by_skill.
    rewrite !groupby_mean_keys. reflexivity. }
  rewrite market_analysis_rows. rewrite key3_map.
  split; [apply sorted_keys_NoDup|].
  split; [intros c; apply sorted_keys_In|].
  split.
  { rewrite length_map. unfold nunique.
    apply Permutation_length. apply sort_str_perm. }
  intros c p f.
  unfold avg_price_by_skill, avg_friction_by_skill, groupby_mean.
  rewrite !in_map_iff. split.
  - intros [k [E Hk]]. inversion E; subst.
    split; exists c; split; auto.
  - intros [[k [E Hk]] [k' [E' Hk']]].
    inversion E; subst. inversion E'; subst.
    exists c. split; auto.
Qed.

(** ** Country counts *)

Lemma count_str_rows (key : JobPosting -> cell) (c : string) (D : DataFrame) :
  count_str c (map key D) = length (group_rows key c D).
Proof.
  unfold count_str, group_rows.
  induction D as [|r D IH]; simpl; [reflexivity|].
  destruct (key r) as [s|]; simpl.
  - destruct (string_dec s c) as [E|E];
      destruct (String.eqb_spec s c) as [E'|E']; try contradiction;
      simpl; rewrite IH; reflexivity.
  - exact IH.
Qed.

Lemma lookup_count_In (t : list (string * nat)) (c : string) (n : nat) :
  NoDup (map fst t) -> In (c, n) t -> lookup_count c t = Some n.
Proof.
  unfold lookup_count.
  induction t as [|[k m] t IH]; simpl; [tauto|].
  intros Hnd [E | Hin].
  - inversion E; subst. rewrite String.eqb_refl. reflexivity.
  - inversion Hnd as [|? ? Hk Hnd']; subst.
    destruct (String.eqb_spec k c) as [->|Hne].
    + exfalso. apply Hk. apply in_map_iff. exists (c, n). split; auto.
    + apply IH; assumption.
Qed.

(** C4: the country counts have at most 10 entries, one per client country
    and none twice, largest count first, and every entry carries the number
    of the rows of its country.  When the client countries of the frame are
    at most 10 (they all lie in a duplicate-free list of at most 10 names),
    every one of them is an entry, with the number of its rows. *)
Theorem country_counts_top10 (D : DataFrame) :
  length (country_counts D) <= 10 /\
  non_increasing (country_counts D) /\
  NoDup (map fst (country_counts D)) /\
  (forall c n, In (c, n) (country_counts D) ->
     n = length (filter (from_country c) D) /\ 1 <= n) /\
  (forall names,
     NoDup names -> length names <= 10 ->
     (forall c, In (Some c) (map client_country D) -> In c names) ->
     forall c, In (Some c) (map client_country D) ->
       In (c, length (filter (from_country c) D)) (country_counts D) /\
       lookup_count c (country_counts D) =
         Some (length (filter (from_country c) D))).
Proof.
  assert (Hnd : NoDup (map fst (country_counts D))).
  { unfold country_counts, nlargest. rewrite <- firstn_map.
    assert (H : NoDup (map fst (sort_values_desc
                                  (value_counts (map client_country D))))).
    { apply (Permutation_NoDup
               (l := map fst (value_counts (map client_country D)))).
      - apply Permutation_map. symmetry. apply sort_values_desc_perm.
      - apply value_counts_keys_NoDup. }
    rewrite <- (firstn_skipn 10 (map fst _)) in H.
    apply NoDup_app_remove_r in H. exact H. }
  split; [unfold country_counts, nlargest; apply firstn_le_length|].
  split.
  { unfold country_counts, nlargest.
    apply StronglySorted_firstn. apply sort_values_desc_sorted. }
  split; [exact Hnd|].
  split.
  { intros c n H. unfold country_counts, nlargest in H.
    apply In_firstn in H.
    apply (Permutation_in _ (sort_values_desc_perm _)) in H.
    apply value_counts_entry in H. destruct H as [-> H].
    rewrite <- group_rows_from_country, <- count_str_rows.
    split; [reflexivity | apply count_str_pos; exact H]. }
  intros names Hnames Hlen Hall c Hc.
  assert (Hle : nunique (map client_country D) <= 10).
  { unfold nunique. transitivity (length names); [|exact Hlen].
    apply NoDup_incl_length; [apply distinct_NoDup|].
    intros k Hk. apply Hall. apply distinct_In. exact Hk. }
  assert (Hin : In (c, length (filter (from_country c) D)) (country_counts D)).
  { unfold country_counts, nlargest. rewrite firstn_all2.
    - apply (Permutation_in _ (Permutation_sym (sort_values_desc_perm _))).
      rewrite <- group_rows_from_country, <- count_str_rows.
      apply value_counts_In. exact Hc.
    - rewrite (Permutation_length (sort_values_desc_perm _)).
      rewrite value_counts_length. exact Hle. }
  split; [exact Hin|].
  apply lookup_count_In; assumption.
Qed.

Lemma country_counts_top10_witness :
  NoDup ["US"; "IN"] /\
  length ["US"; "IN"] <= 10 /\
  (forall c, In (Some c) (map client_country scenario) ->
             In c ["US"; "IN"]) /\
  In (Some "US") (map client_country scenario) /\
  In ("US", length (filter (from_country "US") scenario))
     (country_counts scenario).
Proof.
  assert (H1 : NoDup ["US"; "IN"]).
  { repeat constructor; simpl; intuition discriminate. }
  assert (H2 : length ["US"; "IN"] <= 10) by (simpl; lia).
  assert (H3 : forall c, In (Some c) (map client_country scenario) ->
                         In c ["US"; "IN"]).
  { simpl. intros c [H | [H | [H | H]]]; inversion H; subst; auto. }
  assert (H4 : In (Some "US") (map client_country scenario))
    by (left; reflexivity).
  split; [exact H1|]. split; [exact H2|]. split; [exact H3|].
  split; [exact H4|].
  apply (proj2 (proj2 (proj2 (proj2 (country_counts_top10 scenario))))
           ["US"; "IN"] H1 H2 H3 "US" H4).
Defined.

(** ** Job-type counts and failure freedom *)

(** C5, as stated, fails on a frame with a blank [Job_Type] cell:
    [value_counts] leaves NaN out, so the counts add up to 0 while the frame
    has 1 row. *)
Lemma job_type_counts_blank_cell :
  job_type_counts blank_job_type = [] /\
  sum_counts (job_type_counts blank_job_type) = 0 /\
  length blank_job_type = 1 /\
  sum_counts (job_type_counts blank_job_type) <> length blank_job_type.
Proof. repeat split. discriminate. Qed.

(** C5 (amended): for every frame, the empty one included, the category
    metrics are computed without raising: in every run, once the filtered
    frame is bound the category table of that frame is bound as well, the
    run is never left in between; the empty frame has the empty table, and
    a run whose filtered frame is empty goes on to its end.  The counts of
    the job-type table add up to the number of rows whose [Job_Type] is
    present; together with the rows whose [Job_Type] is blank they make up
    the row count. *)
Theorem aggregation_total_job_type_sum (D : DataFrame) :
  (forall read_excel choice filtered,
     g_df_filtered (snd (run read_excel choice)) = Some filtered ->
     g_market_analysis (snd (run read_excel choice))
       = Some (market_analysis filtered)) /\
  (market_analysis [] = [] /\
   g_df_filtered (snd (run (inr all_blank) 1)) = Some [] /\
   g_market_analysis (snd (run (inr all_blank) 1)) = Some [] /\
   fst (run (inr all_blank) 1) = Ok tt) /\
  sum_counts (job_type_counts D) =
    length (filter (fun r => is_str (Job_Type r)) D) /\
  sum_counts (job_type_counts D) +
    length (filter (fun r => is_nan (Job_Type r)) D) = length D.
Proof.
  split.
  { intros read_excel choice filtered Hf.
    destruct read_excel as [e | [|r df]];
      [destruct e; discriminate Hf | discriminate Hf |].
    unfold DataFrame in *.
    destruct (run_nonempty_cases r df) as [[_ [l H]] | [_ H]].
    - destruct (sizes_ok
                  (market_analysis
                     (df_filtered (r :: df)
                        (nth choice (Some All_Countries :: l)
                             (Some All_Countries))))) eqn:E.
      + destruct (run_selection_ok r df choice l H E) as [s [Hrun Hs]].
        rewrite Hrun in *. simpl in *.
        destruct Hs as (_ & _ & _ & Hf' & Hm & _).
        rewrite Hf' in Hf. inversion Hf; subst. exact Hm.
      + destruct (run_selection_scatter_raises r df choice l H E)
          as [s [Hrun Hs]].
        rewrite Hrun in *. simpl in *.
        destruct Hs as (_ & _ & _ & Hf' & Hm & _).
        rewrite Hf' in Hf. inversion Hf; subst. exact Hm.
    - destruct (run_selection_raises r df choice H) as [s [Hrun Hs]].
      rewrite Hrun in *. simpl in *.
      destruct Hs as (_ & _ & _ & Hf' & _).
      rewrite Hf' in Hf. discriminate Hf. }
  split; [repeat split|].
  assert (Hsum : sum_counts (job_type_counts D) =
                 length (filter (fun r => is_str (Job_Type r)) D)).
  { unfold job_type_counts. rewrite value_counts_sum, dropna_length.
    induction D as [|r D IH]; simpl; [reflexivity|].
    destruct (is_str (Job_Type r)); simpl; rewrite IH; reflexivity. }
  split; [exact Hsum|].
  rewrite Hsum. unfold is_nan.
  apply (filter_negb_length (fun r => is_str (Job_Type r))).
Qed.

(** ** Overview metrics *)

(** C6: in every run, for every selection, the overview variables are those
    of the unfiltered frame: [total_jobs] is its row count, [avg_price] the
    mean of its [Price_USD] column, [unique_countries] the number of its
    distinct client countries (a run on a frame without rows stops before
    them, whatever the selection).  Changing the selection changes none of
    the three. *)
Theorem overview_of_unfiltered_frame (D : DataFrame) (choice : nat) :
  overview (snd (run (inr D) choice)) =
    (if empty D then (None, None, None)
     else (Some (length D),
           Some (mean (map Price_USD D)),
           Some (length (distinct (map client_country D))))) /\
  (forall choice',
     overview (snd (run (inr D) choice')) =
     overview (snd (run (inr D) choice))).
Proof.
  destruct D as [|r D].
  - split; [reflexivity | intros; reflexivity].
  - split.
    + rewrite run_nonempty_overview. reflexivity.
    + intros choice'. rewrite !run_nonempty_overview. reflexivity.
Qed.

(** ** Loader failure *)

(** C7, as stated, fails when the workbook loads without rows: the run is
    stopped, but no error message is shown. *)
Lemma empty_frame_stops_silently :
  fst (run (inr []) 0) = Stopped /\
  ui (snd (run (inr []) 0)) = [st_fixed 11] /\
  ~ error_shown (snd (run (inr []) 0)).
Proof.
  split; [reflexivity|]. split; [reflexivity|].
  intros [line [H | H]]; [discriminate H | exact H].
Qed.

(** C7 (amended): when the workbook is missing, the script shows its error
    message and stops; when the workbook loads without rows, the script
    stops; when reading the workbook raises any other exception, the
    exception leaves the script.  In all three cases nothing after the
    loader runs: no overview, no selection, no filtering, no aggregation and
    no chart. *)
Theorem load_failure_halts (choice : nat) :
  (fst (run (inl FileNotFoundError) choice) = Stopped /\
   ui (snd (run (inl FileNotFoundError) choice)) =
     [st_fixed 11; st_error 27] /\
   pipeline_untouched (snd (run (inl FileNotFoundError) choice))) /\
  (fst (run (inr []) choice) = Stopped /\
   ui (snd (run (inr []) choice)) = [st_fixed 11] /\
   pipeline_untouched (snd (run (inr []) choice))) /\
  (forall e, e <> FileNotFoundError ->
     fst (run (inl e) choice) = Raised e /\
     ui (snd (run (inl e) choice)) = [st_fixed 11] /\
     pipeline_untouched (snd (run (inl e) choice))).
Proof.
  assert (Hui : forall l, (forall c, In c l ->
                   c = st_fixed 11 \/ c = st_error 27) ->
                 forall c, In c l ->
                   c = st_fixed 11 \/ exists line, c = st_error line).
  { intros l H c Hc. destruct (H c Hc) as [E | E]; [left; exact E|].
    right. exists 27. exact E. }
  split; [|split].
  - rewrite run_file_missing. simpl.
    repeat split; try reflexivity.
    apply Hui. simpl. intuition.
  - rewrite run_no_rows. simpl.
    repeat split; try reflexivity.
    apply Hui. simpl. intuition.
  - intros e He. rewrite (run_read_raises e choice He). simpl.
    repeat split; try reflexivity.
    apply Hui. simpl. intuition.
Qed.

Lemma load_failure_halts_witness :
  PermissionError <> FileNotFoundError /\
  fst (run (inl PermissionError) 0) = Raised PermissionError.
Proof.
  assert (H : PermissionError <> FileNotFoundError) by discriminate.
  split; [exact H|].
  apply (proj2 (proj2 (load_failure_halts 0)) PermissionError H).
Defined.

(** C10, as stated, fails on a frame whose [Price_USD] cells are all blank:
    the frame has a row and the run reaches the overview, but the mean has
    no value to divide by and is NaN. *)
Lemma overview_blank_price :
  blank_price_only <> [] /\
  g_total_jobs (snd (run (inr blank_price_only) 0)) = Some 1 /\
  g_avg_price (snd (run (inr blank_price_only) 0)) = Some None /\
  length (present (map Price_USD blank_price_only)) = 0 /\
  ~ (exists q : Q,
       g_avg_price (snd (run (inr blank_price_only) 0)) = Some (Some q)).
Proof.
  split; [discriminate|]. split; [reflexivity|]. split; [reflexivity|].
  split; [reflexivity|].
  intros [q H]. vm_compute in H. discriminate H.
Qed.

(** C10 (amended): a run that reaches the overview metrics has loaded a
    frame with at least one row.  Its [avg_price] is the arithmetic mean of
    the [Price_USD] values that are present: NaN when every price is blank,
    and otherwise their total divided by their number, which is not zero;
    no division by zero takes place. *)
Theorem overview_reached_on_nonempty_frame
  (read_excel : exn + DataFrame) (choice : nat) (p : num) :
  g_avg_price (snd (run read_excel choice)) = Some p ->
  exists D,
    read_excel = inr D /\
    D <> [] /\
    0 < length D /\
    is_mean_of (present (map Price_USD D)) p /\
    (present (map Price_USD D) = [] -> p = None) /\
    (forall q, p = Some q ->
       0 < length (present (map Price_USD D)) /\
       ~ (inject_Z (Z.of_nat (length (present (map Price_USD D)))) == 0)%Q /\
       (q == total (present (map Price_USD D))
             / inject_Z (Z.of_nat (length (present (map Price_USD D)))))%Q).
Proof.
  intros H.
  destruct read_excel as [e | [|r D]].
  - destruct e; discriminate H.
  - discriminate H.
  - exists (r :: D).
    pose proof (run_nonempty_overview r D choice) as Hov.
    unfold overview in Hov.
    assert (Hp : g_avg_price (snd (run (inr (r :: D)) choice))
                 = Some (avg_price (r :: D))) by congruence.
    pose proof (eq_trans (eq_sym H) Hp) as E. inversion E; subst p.
    pose proof (mean_is_mean (map Price_USD (r :: D))) as Hmean.
    fold (avg_price (r :: D)) in Hmean.
    split; [reflexivity|].
    split; [discriminate|].
    split; [simpl; lia|].
    split; [exact Hmean|].
    split.
    + intros E0. destruct (avg_price (r :: D)) as [q|]; [|reflexivity].
      destruct Hmean as [Hne _]. contradiction.
    + intros q Hq. rewrite Hq in Hmean. destruct Hmean as [Hne Hq'].
      pose proof (inject_Z_length_pos _ Hne) as Hpos.
      assert (Hnz : ~ (inject_Z
                         (Z.of_nat (length (present (map Price_USD (r :: D)))))
                       == 0)%Q).
      { intros E0. rewrite E0 in Hpos. apply (Qlt_irrefl 0). exact Hpos. }
      split; [destruct (present (map Price_USD (r :: D)));
              [congruence | simpl; lia]|].
      split; [exact Hnz|].
      rewrite <- Hq'. field. exact Hnz.
Qed.

Lemma overview_reached_on_nonempty_frame_witness :
  g_avg_price (snd (run (inr scenario) 0)) = Some (Some (600 # 3)%Q) /\
  exists D, inr scenario = inr (A := exn) D /\ D <> [].
Proof.
  assert (H : g_avg_price (snd (run (inr scenario) 0))
              = Some (Some (600 # 3)%Q)) by reflexivity.
  split; [exact H|].
  destruct (overview_reached_on_nonempty_frame (inr scenario) 0 _ H)
    as [D [E [Hne _]]].
  exists D. split; assumption.
Defined.

(** ** The scenario *)

(** C8: on the three postings of the scenario the overview is
    [total_jobs = 3], [avg_price = 200], [unique_countries = 2]; filtered to
    "US", the category metrics are the mapping
    {Writing: (100, 0.8), Dev: (300, 0.2)} and the job-type counts are the
    mapping {Fixed: 1, Hourly: 1}. *)
Theorem scenario_values :
  let us := df_filtered scenario (Some "US") in
  total_jobs scenario = 3 /\
  num_eq (avg_price scenario) (Some 200%Q) /\
  unique_countries scenario = 2 /\
  length (market_analysis us) = 2 /\
  (exists p f, lookup3 "Writing" (market_analysis us) = Some (p, f) /\
               num_eq p (Some 100%Q) /\ num_eq f (Some (8 # 10)%Q)) /\
  (exists p f, lookup3 "Dev" (market_analysis us) = Some (p, f) /\
               num_eq p (Some 300%Q) /\ num_eq f (Some (2 # 10)%Q)) /\
  length (job_type_counts us) = 2 /\
  lookup_count "Fixed" (job_type_counts us) = Some 1 /\
  lookup_count "Hourly" (job_type_counts us) = Some 1.
Proof.
  cbv zeta.
  split; [reflexivity|].
  split; [vm_compute; reflexivity|].
  split; [reflexivity|].
  split; [reflexivity|].
  split.
  { eexists. eexists. split; [vm_compute; reflexivity|].
    split; vm_compute; reflexivity. }
  split.
  { eexists. eexists. split; [vm_compute; reflexivity|].
    split; vm_compute; reflexivity. }
  repeat split.
Qed.

(** * Further properties of the script *)

(** ** The filter, for every selection *)

Lemma filter_idem {A : Type} (f : A -> bool) (l : list A) :
  filter f (filter f l) = filter f l.
Proof.
  induction l as [|x l IH]; simpl; [reflexivity|].
  destruct (f x) eqn:E; simpl; [rewrite E, IH; reflexivity | exact IH].
Qed.

Lemma filter_none {A : Type} (f : A -> bool) (l : list A) :
  (forall x, In x l -> f x = false) <-> filter f l = [].
Proof.
  induction l as [|x l IH]; simpl.
  - split; [reflexivity | intros _ x []].
  - split.
    + intros H. rewrite (H x (or_introl eq_refl)).
      apply IH. intros y Hy. apply H. right; exact Hy.
    + intros H y [-> | Hy].
      * destruct (f y); [discriminate | reflexivity].
      * destruct (f x); [discriminate|]. apply (proj2 IH H y Hy).
Qed.

Lemma filter_all {A : Type} (f : A -> bool) (l : list A) :
  (forall x, In x l -> f x = true) -> filter f l = l.
Proof.
  induction l as [|x l IH]; simpl; intros H; [reflexivity|].
  rewrite (H x (or_introl eq_refl)). f_equal.
  apply IH. intros y Hy. apply H. right; exact Hy.
Qed.

Lemma df_filtered_nan (D : DataFrame) : df_filtered D NaN = [].
Proof.
  unfold df_filtered, country_mask. simpl. rewrite map_map.
  rewrite getitem_mask_filter. apply filter_none.
  intros r _. destruct (client_country r); reflexivity.
Qed.

Lemma df_filtered_Subseq (D : DataFrame) (sel : cell) :
  Subseq (df_filtered D sel) D.
Proof.
  unfold df_filtered, country_mask.
  destruct (negb (cell_eqb sel (Some All_Countries))).
  - rewrite map_map, getitem_mask_filter. apply Subseq_filter.
  - clear sel. induction D; auto with frame.
Qed.

Lemma Subseq_In {A : Type} (s l : list A) (x : A) :
  Subseq s l -> In x s -> In x l.
Proof.
  induction 1 as [|y s l _ IH|y s l _ IH]; simpl; intros H.
  - exact H.
  - destruct H as [H | H]; [left; exact H | right; apply IH; exact H].
  - right. apply IH. exact H.
Qed.

(** X1: for every selection the filtered frame is the frame with rows left
    out, in order.  A blank selection keeps no row; a country other than the
    sentinel keeps no row exactly when no row has it. *)
Theorem df_filtered_unmatched (D : DataFrame) (sel : cell) :
  Subseq (df_filtered D sel) D /\
  df_filtered D NaN = [] /\
  (forall v, v <> All_Countries ->
     (df_filtered D (Some v) = [] <-> ~ In (Some v) (map client_country D))).
Proof.
  split; [apply df_filtered_Subseq|].
  split; [apply df_filtered_nan|].
  intros v Hv. rewrite (df_filtered_country D v Hv).
  split.
  - intros H0 Hin.
    pose proof (proj2 (filter_none _ _) H0) as H. simpl in H.
    apply in_map_iff in Hin. destruct Hin as [r [Hc Hr]].
    specialize (H r Hr). rewrite (proj2 (cell_eqb_eq _ v) Hc) in H.
    discriminate.
  - intros H. apply filter_none. intros r Hr.
    destruct (cell_eqb (client_country r) (Some v)) eqn:E; [|reflexivity].
    exfalso. apply H. apply in_map_iff. exists r.
    split; [apply cell_eqb_eq; exact E | exact Hr].
Qed.

(** X2: filtering a filtered frame again by the same selection changes
    nothing, and filtering it by another country (neither being the
    sentinel) leaves no row. *)
Theorem df_filtered_twice (D : DataFrame) (sel : cell) :
  df_filtered (df_filtered D sel) sel = df_filtered D sel /\
  (forall v w, v <> All_Countries -> w <> All_Countries -> v <> w ->
     df_filtered (df_filtered D (Some v)) (Some w) = []).
Proof.
  split.
  - destruct sel as [v|]; [|rewrite !df_filtered_nan; reflexivity].
    destruct (string_dec v All_Countries) as [->|Hv]; [reflexivity|].
    rewrite !(df_filtered_country _ v Hv). apply filter_idem.
  - intros v w Hv Hw Hvw.
    rewrite (df_filtered_country _ w Hw), (df_filtered_country _ v Hv).
    apply filter_none. intros r Hr.
    apply filter_In in Hr. destruct Hr as [_ Hr].
    apply cell_eqb_eq in Hr. rewrite Hr. simpl.
    apply String.eqb_neq. exact Hvw.
Qed.

Lemma df_filtered_unmatched_witness :
  "FR" <> All_Countries /\
  ~ In (Some "FR") (map client_country scenario) /\
  df_filtered scenario (Some "FR") = [].
Proof.
  assert (H1 : "FR" <> All_Countries) by discriminate.
  assert (H2 : ~ In (Some "FR") (map client_country scenario)).
  { simpl. intros [H | [H | [H | H]]]; try discriminate H; exact H. }
  split; [exact H1|]. split; [exact H2|].
  apply (proj2 (proj2 (df_filtered_unmatched scenario NaN)) "FR" H1).
  exact H2.
Defined.

Lemma df_filtered_twice_witness :
  "US" <> All_Countries /\ "IN" <> All_Countries /\ "US" <> "IN" /\
  df_filtered (df_filtered scenario (Some "US")) (Some "IN") = [].
Proof.
  assert (H1 : "US" <> All_Countries) by discriminate.
  assert (H2 : "IN" <> All_Countries) by discriminate.
  assert (H3 : "US" <> "IN") by discriminate.
  split; [exact H1|]. split; [exact H2|]. split; [exact H3|].
  apply (proj2 (df_filtered_twice scenario NaN) "US" "IN" H1 H2 H3).
Defined.

(** ** Count tables *)

Lemma lookup_count_absent (t : list (string * nat)) (k : string) :
  ~ In k (map fst t) -> lookup_count k t = None.
Proof.
  unfold lookup_count.
  induction t as [|[k' n] t IH]; simpl; [reflexivity|].
  intros H. destruct (String.eqb_spec k' k) as [->|Hne]; [tauto|].
  apply IH. tauto.
Qed.

Lemma value_counts_sorted_twice (col : list cell) :
  sort_values_desc (value_counts col) = value_counts col.
Proof.
  apply sort_values_desc_sorted_id. apply sort_values_desc_sorted.
Qed.

Lemma StronglySorted_app_rel {A : Type} (R : A -> A -> Prop)
  (l1 l2 : list A) (a b : A) :
  StronglySorted R (l1 ++ l2) -> In a l1 -> In b l2 -> R a b.
Proof.
  induction l1 as [|x l1 IH]; simpl; intros H Ha Hb; [contradiction|].
  inversion H as [|? ? Hs Hx]; subst.
  destruct Ha as [-> | Ha].
  - rewrite Forall_forall in Hx. apply Hx. apply in_or_app. right; exact Hb.
  - apply IH; assumption.
Qed.

(** X3: the job-type table is the mapping from every job type that occurs
    to the number of its rows, which is at least 1; a type without rows has
    no entry.  Its keys are distinct and its counts come largest first. *)
Theorem job_type_counts_mapping (D : DataFrame) (k : string) :
  lookup_count k (job_type_counts D) =
    match length (group_rows Job_Type k D) with
    | 0 => None
    | S n => Some (S n)
    end /\
  NoDup (map fst (job_type_counts D)) /\
  non_increasing (job_type_counts D) /\
  Forall (fun row => 1 <= snd row) (job_type_counts D).
Proof.
  unfold job_type_counts.
  split; [|split; [apply value_counts_keys_NoDup|
           split; [apply sort_values_desc_sorted|]]].
  - rewrite <- count_str_rows.
    destruct (count_str k (map Job_Type D)) as [|n] eqn:E.
    + apply lookup_count_absent. rewrite value_counts_keys.
      intros H. apply count_str_pos in H. lia.
    + apply lookup_count_In; [apply value_counts_keys_NoDup|].
      rewrite <- E. apply value_counts_In.
      unfold count_str in E.
      apply dropna_In. apply (count_occ_In string_dec). lia.
  - apply Forall_forall. intros [k' n] H. simpl.
    apply value_counts_entry in H. destruct H as [-> H].
    apply count_str_pos. exact H.
Qed.


Lemma country_counts_prefix (D : DataFrame) :
  country_counts D = firstn 10 (value_counts (map client_country D)).
Proof.
  unfold country_counts, nlargest. rewrite value_counts_sorted_twice.
  reflexivity.
Qed.


(** X5: the bar chart keeps the largest counts: a client country that is
    left out has at most as many rows as every country that is shown. *)
Theorem country_counts_keeps_largest (D : DataFrame) (c c' : string)
  (n' : nat) :
  In (Some c) (map client_country D) ->
  ~ In c (map fst (country_counts D)) ->
  In (c', n') (country_counts D) ->
  length (group_rows client_country c D) <= n'.
Proof.
  rewrite country_counts_prefix. intros Hc Hout Hin.
  set (t := value_counts (map client_country D)) in *.
  assert (Hs : non_increasing (firstn 10 t ++ skipn 10 t)).
  { rewrite firstn_skipn. apply sort_values_desc_sorted. }
  assert (Ht : In (c, count_str c (map client_country D)) t)
    by (apply value_counts_In; exact Hc).
  rewrite <- (firstn_skipn 10 t) in Ht.
  apply in_app_or in Ht. destruct Ht as [Ht | Ht].
  - exfalso. apply Hout. apply in_map_iff.
    exists (c, count_str c (map client_country D)). split; [reflexivity|].
    exact Ht.
  - rewrite <- count_str_rows.
    apply (StronglySorted_app_rel _ _ _ _ _ Hs Hin Ht).
Qed.

Lemma country_counts_keeps_largest_witness :
  In (Some "k") (map client_country eleven_countries) /\
  ~ In "k" (map fst (country_counts eleven_countries)) /\
  In ("a", 1) (country_counts eleven_countries) /\
  length (group_rows client_country "k" eleven_countries) <= 1.
Proof.
  assert (H1 : In (Some "k") (map client_country eleven_countries))
    by (simpl; repeat (try (left; reflexivity); right)).
  assert (H2 : ~ In "k" (map fst (country_counts eleven_countries))).
  { vm_compute. intros H.
    repeat (destruct H as [H | H]; [discriminate H|]). exact H. }
  assert (H3 : In ("a", 1) (country_counts eleven_countries))
    by (left; reflexivity).
  split; [exact H1|]. split; [exact H2|]. split; [exact H3|].
  apply (country_counts_keeps_largest eleven_countries "k" "a" 1 H1 H2 H3).
Defined.

Lemma distinct_single (col : list cell) (v : string) :
  col <> [] -> Forall (fun c => c = Some v) col -> distinct col = [v].
Proof.
  intros Hne Hall. unfold distinct.
  destruct col as [|a col]; [congruence|].
  inversion Hall as [|? ? Ha Hcol]; subst. simpl. f_equal.
  apply filter_none. intros y Hy.
  apply (proj1 (unique_by_In String.eqb String.eqb_eq _ _)) in Hy.
  apply (proj1 (dropna_In _ _)) in Hy.
  rewrite Forall_forall in Hcol. specialize (Hcol _ Hy).
  inversion Hcol; subst. rewrite String.eqb_refl. reflexivity.
Qed.

(** X6: once the frame is filtered to a client country that occurs (and is
    not spelled like the sentinel), the bar chart has a single bar: that
    country with all rows of the filtered frame. *)
Theorem country_counts_of_filtered (D : DataFrame) (v : string) :
  v <> All_Countries ->
  In (Some v) (map client_country D) ->
  country_counts (df_filtered D (Some v)) =
    [(v, length (df_filtered D (Some v)))].
Proof.
  intros Hv Hin.
  rewrite (df_filtered_country D v Hv).
  set (F := filter (fun r => cell_eqb (client_country r) (Some v)) D).
  assert (Hall : forall r, In r F -> client_country r = Some v).
  { intros r Hr. apply filter_In in Hr. apply cell_eqb_eq. apply Hr. }
  assert (Hne : F <> []).
  { apply in_map_iff in Hin. destruct Hin as [r [Hc Hr]].
    intros E.
    assert (H : In r F)
      by (apply filter_In; split; [exact Hr | apply cell_eqb_eq; exact Hc]).
    rewrite E in H. exact H. }
  unfold country_counts, nlargest, value_counts.
  rewrite (distinct_single (map client_country F) v).
  - simpl. rewrite count_str_rows. unfold group_rows.
    rewrite filter_all; [reflexivity|].
    intros r Hr. rewrite (Hall r Hr). simpl. apply String.eqb_refl.
  - destruct F; [congruence | discriminate].
  - apply Forall_forall. intros c Hc.
    apply in_map_iff in Hc. destruct Hc as [r [<- Hr]]. apply Hall. exact Hr.
Qed.

Lemma country_counts_of_filtered_witness :
  "US" <> All_Countries /\
  In (Some "US") (map client_country scenario) /\
  country_counts (df_filtered scenario (Some "US")) =
    [("US", length (df_filtered scenario (Some "US")))].
Proof.
  assert (H1 : "US" <> All_Countries) by discriminate.
  assert (H2 : In (Some "US") (map client_country scenario))
    by (left; reflexivity).
  split; [exact H1|]. split; [exact H2|].
  apply (country_counts_of_filtered scenario "US" H1 H2).
Defined.

(** ** The category table *)

(** X7: the rows of the merged table, and of the two grouped tables it is
    merged from, come in ascending order of [Skill_Category]. *)
Theorem market_analysis_ascending (D : DataFrame) :
  ascending (map key3 (market_analysis D)) /\
  ascending (map fst (avg_price_by_skill D)) /\
  ascending (map fst (avg_friction_by_skill D)).
Proof.
  rewrite market_analysis_rows, key3_map.
  unfold avg_price_by_skill, avg_friction_by_skill.
  rewrite !groupby_mean_keys.
  repeat split; apply sort_str_ascending.
Qed.

(** ** Runs of the script *)

Lemma nth_default_In {A : Type} (n : nat) (d : A) (l : list A) :
  In (nth n (d :: l) d) (d :: l).
Proof.
  destruct (Nat.lt_ge_cases n (length (d :: l))) as [H | H].
  - apply nth_In. exact H.
  - rewrite nth_overflow by exact H. left. reflexivity.
Qed.

Lemma df_filtered_present_nonempty (D : DataFrame) (v : string) :
  D <> [] -> In (Some v) (map client_country D) ->
  df_filtered D (Some v) <> [].
Proof.
  intros Hne Hin.
  destruct (string_dec v All_Countries) as [->|Hv]; [exact Hne|].
  rewrite (df_filtered_country D v Hv). intros E.
  apply in_map_iff in Hin. destruct Hin as [r [Hc Hr]].
  assert (H : In r (filter (fun r => cell_eqb (client_country r) (Some v)) D))
    by (apply filter_In; split; [exact Hr | apply cell_eqb_eq; exact Hc]).
  rewrite E in H. exact H.
Qed.

Lemma country_counts_nonempty (D : DataFrame) (c : string) :
  In (Some c) (map client_country D) -> country_counts D <> [].
Proof.
  intros H E.
  assert (Hl : length (country_counts D) = 0) by (rewrite E; reflexivity).
  rewrite country_counts_prefix, length_firstn, value_counts_length in Hl.
  assert (Hn : 1 <= nunique (map client_country D)).
  { unfold nunique. apply distinct_In in H.
    destruct (distinct (map client_country D)); [contradiction | simpl; lia]. }
  lia.
Qed.

Lemma unique_all_nan (col : list cell) :
  col <> [] -> forallb is_nan col = true -> unique col = [NaN].
Proof.
  intros Hne Hall. unfold unique.
  destruct col as [|[s|] col]; [congruence | discriminate |].
  simpl. f_equal. apply filter_none. intros y Hy.
  apply (proj1 (unique_by_In cell_same cell_same_spec _ _)) in Hy.
  simpl in Hall. rewrite forallb_forall in Hall.
  specialize (Hall y Hy). destruct y; [discriminate | reflexivity].
Qed.

(** A run in which the options can be built reaches the scatter chart;
    what happens there decides how it ends. *)
Lemma run_selection_reached (r : JobPosting) (df : DataFrame) (choice : nat)
  (countries : list cell) :
  sorted (unique (map client_country (r :: df))) = ret countries ->
  let sel := nth choice (Some All_Countries :: countries)
                 (Some All_Countries) in
  let filtered := df_filtered (r :: df) sel in
  let s := snd (run (inr (r :: df)) choice) in
  g_selected_country s = Some sel /\
  g_df_filtered s = Some filtered /\
  g_market_analysis s = Some (market_analysis filtered) /\
  metrics (ui s) = three_metrics (r :: df) /\
  selectboxes (ui s) = [Some All_Countries :: countries] /\
  viewing (ui s) =
    (if cell_eqb sel (Some All_Countries) then [] else [sel]) /\
  errors (ui s) = [] /\
  ((sizes_ok (market_analysis filtered) = true /\
    fst (run (inr (r :: df)) choice) = Ok tt /\
    charts (ui s) = three_charts filtered /\
    g_country_counts s = Some (country_counts filtered) /\
    g_job_type_counts s = Some (job_type_counts filtered)) \/
   (sizes_ok (market_analysis filtered) = false /\
    fst (run (inr (r :: df)) choice) = Raised ValueError /\
    charts (ui s) = [] /\
    g_country_counts s = None /\
    g_job_type_counts s = None)).
Proof.
  intros H sel filtered s. subst s.
  destruct (sizes_ok (market_analysis filtered)) eqn:E.
  - destruct (run_selection_ok r df choice countries H E) as [s [Hrun Hs]].
    rewrite Hrun. simpl. fold sel in Hs. fold filtered in Hs.
    repeat split; try apply Hs.
    left. repeat split; apply Hs.
  - destruct (run_selection_scatter_raises r df choice countries H E)
      as [s [Hrun Hs]].
    rewrite Hrun. simpl. fold sel in Hs. fold filtered in Hs.
    repeat split; try apply Hs.
    right. repeat split; apply Hs.
Qed.

(** X10: on a frame whose client countries are all present, the selection
    offers "All Countries" followed by the distinct client countries of the
    frame, each once, in ascending order; there are unique_countries of
    them. *)
Theorem selectbox_options (r : JobPosting) (df : DataFrame) (choice : nat) :
  forallb is_str (map client_country (r :: df)) = true ->
  exists ks,
    selectboxes (ui (snd (run (inr (r :: df)) choice))) =
      [Some All_Countries :: map Some ks] /\
    ascending ks /\
    NoDup ks /\
    (forall c, In c ks <-> In (Some c) (map client_country (r :: df))) /\
    length ks = unique_countries (r :: df).
Proof.
  intros Hall.
  destruct (sorted_cases (map client_country (r :: df)))
    as [[_ H] | [[H1 _] | [H1 _]]]; try congruence.
  pose proof (run_selection_reached r df choice _ H) as Hs. simpl in Hs.
  exists (sort_str (distinct (map client_country (r :: df)))).
  split; [apply Hs|].
  split; [apply sort_str_ascending|].
  split; [apply sorted_keys_NoDup|].
  split; [intros c; apply sorted_keys_In|].
  unfold unique_countries, nunique.
  apply Permutation_length. apply sort_str_perm.
Qed.

Lemma selectbox_options_witness :
  forallb is_str (map client_country scenario) = true /\
  exists ks,
    selectboxes (ui (snd (run (inr scenario) 0))) =
      [Some All_Countries :: map Some ks] /\
    length ks = unique_countries scenario.
Proof.
  assert (H : forallb is_str (map client_country scenario) = true)
    by reflexivity.
  split; [exact H|].
  destruct (selectbox_options _ _ 0 H) as [ks [H1 [_ [_ [_ H2]]]]].
  exists ks. split; assumption.
Defined.

(** X11: on a frame with a blank and a named client country the run is left
    by a [TypeError] when the options are built: the three metrics of the
    whole frame are on the page, but no selection is offered, nothing is
    filtered and no chart is drawn. *)
Theorem run_mixed_countries (D : DataFrame) (choice : nat) :
  mixed_countries D ->
  exists s,
    run (inr D) choice = (Raised TypeError, s) /\
    metrics (ui s) = three_metrics D /\
    selectboxes (ui s) = [] /\
    charts (ui s) = [] /\
    g_selected_country s = None /\
    g_df_filtered s = None.
Proof.
  intros Hmix.
  destruct D as [|r df]; [destruct Hmix as [[] _]|].
  destruct (run_nonempty_cases r df) as [[Hn _] | [_ H]]; [contradiction|].
  destruct (run_selection_raises r df choice H) as [s Hs].
  exists s. intuition.
Qed.

Lemma run_mixed_countries_witness :
  mixed_countries blank_and_named /\
  fst (run (inr blank_and_named) 0) = Raised TypeError.
Proof.
  assert (H : mixed_countries blank_and_named).
  { split; [left; reflexivity|]. exists "US". right; left; reflexivity. }
  split; [exact H|].
  destruct (run_mixed_countries blank_and_named 0 H) as [s [Hrun _]].
  rewrite Hrun. reflexivity.
Defined.

(** The ways a run on a frame with rows ends: never by [st.stop()]. *)
Lemma run_nonempty_outcome (r : JobPosting) (df : DataFrame) (choice : nat) :
  fst (run (inr (r :: df)) choice) = Ok tt \/
  fst (run (inr (r :: df)) choice) = Raised TypeError \/
  fst (run (inr (r :: df)) choice) = Raised ValueError.
Proof.
  destruct (run_nonempty_cases r df) as [[_ [l H]] | [_ H]].
  - destruct (run_selection_reached r df choice l H)
      as (_ & _ & _ & _ & _ & _ & _ & [Hs | Hs]).
    + left. apply Hs.
    + right. right. apply Hs.
  - destruct (run_selection_raises r df choice H) as [s [Hrun _]].
    right. left. rewrite Hrun. reflexivity.
Qed.

(** X12: whatever the selection, a run is halted by [st.stop()] exactly
    when the workbook is missing or has no rows. *)
Theorem run_stopped_iff (read_excel : exn + DataFrame) (choice : nat) :
  fst (run read_excel choice) = Stopped <->
  read_excel = inl FileNotFoundError \/ read_excel = inr [].
Proof.
  destruct read_excel as [e0 | [|r df]].
  - split.
    + destruct e0; try discriminate. auto.
    + intros [H | H]; [inversion H; reflexivity | discriminate].
  - split; [auto | reflexivity].
  - unfold DataFrame in *. split.
    + destruct (run_nonempty_outcome r df choice) as [H | [H | H]];
        rewrite H; discriminate.
    + intros [H | H]; discriminate.
Qed.

(** X13: the charts are all or nothing.  Either the run goes to its end,
    and the page has exactly the scatter, bar and pie chart, in this order,
    each drawn from the summary of the frame filtered by the selected
    option; or the run does not go to its end, and then no chart is drawn
    and neither the country counts nor the job-type counts are bound. *)
Theorem charts_all_or_nothing (read_excel : exn + DataFrame) (choice : nat) :
  (fst (run read_excel choice) = Ok tt /\
   exists D sel,
     read_excel = inr D /\
     g_selected_country (snd (run read_excel choice)) = Some sel /\
     g_df_filtered (snd (run read_excel choice)) =
       Some (df_filtered D sel) /\
     g_market_analysis (snd (run read_excel choice)) =
       Some (market_analysis (df_filtered D sel)) /\
     g_country_counts (snd (run read_excel choice)) =
       Some (country_counts (df_filtered D sel)) /\
     g_job_type_counts (snd (run read_excel choice)) =
       Some (job_type_counts (df_filtered D sel)) /\
     charts (ui (snd (run read_excel choice))) =
       [ px_scatter (market_analysis (df_filtered D sel));
         px_bar (country_counts (df_filtered D sel));
         px_pie (job_type_counts (df_filtered D sel)) ]) \/
  (fst (run read_excel choice) <> Ok tt /\
   charts (ui (snd (run read_excel choice))) = [] /\
   g_country_counts (snd (run read_excel choice)) = None /\
   g_job_type_counts (snd (run read_excel choice)) = None).
Proof.
  destruct read_excel as [e0 | [|r df]].
  - right. destruct e0; repeat split; discriminate.
  - right. repeat split; discriminate.
  - unfold DataFrame in *.
    destruct (run_nonempty_cases r df) as [[_ [l H]] | [_ H]].
    + destruct (run_selection_reached r df choice l H)
        as (H1 & H2 & H3 & _ & _ & _ & _ & [Hs | Hs]).
      * left. split; [apply Hs|].
        exists (r :: df), (nth choice (Some All_Countries :: l)
                               (Some All_Countries)).
        split; [reflexivity|]. intuition.
      * right. destruct Hs as (_ & Hr & Hs). rewrite Hr.
        split; [discriminate | exact Hs].
    + right.
      destruct (run_selection_raises r df choice H) as [s [Hrun Hs]].
      rewrite Hrun. simpl. split; [discriminate|]. intuition.
Qed.

(** X14: the error message is on the page exactly when the workbook is
    missing; then it is the message of line 27, shown once. *)
Theorem error_shown_iff_file_missing
  (read_excel : exn + DataFrame) (choice : nat) :
  (error_shown (snd (run read_excel choice)) <->
     read_excel = inl FileNotFoundError) /\
  (errors (ui (snd (run read_excel choice))) = [27] \/
   errors (ui (snd (run read_excel choice))) = []).
Proof.
  rewrite error_shown_errors.
  assert (H : (read_excel = inl FileNotFoundError /\
               errors (ui (snd (run read_excel choice))) = [27]) \/
              (read_excel <> inl FileNotFoundError /\
               errors (ui (snd (run read_excel choice))) = [])).
  { destruct read_excel as [e0 | [|r df]].
    - destruct e0; [left | right ..]; split;
        try reflexivity; discriminate.
    - right. split; [discriminate | reflexivity].
    - right. split; [discriminate|]. unfold DataFrame in *.
      destruct (run_nonempty_cases r df) as [[_ [l H]] | [_ H]].
      + apply (run_selection_reached r df choice l H).
      + destruct (run_selection_raises r df choice H) as [s [Hrun Hs]].
        rewrite Hrun. simpl. intuition. }
  destruct H as [[H1 H2] | [H1 H2]]; rewrite H2.
  - split; [|left; reflexivity].
    split; [intros _; exact H1 | intros _; discriminate].
  - split; [|right; reflexivity].
    split; [intros H; congruence | intros H; contradiction].
Qed.

(** X15: on a frame with at least one row whose client countries are all
    present, the run gets to the filter, the selected option is "All
    Countries" or a client country of the frame, and the filtered frame has
    at least one row; its country-count table is not empty. *)
Theorem run_filtered_frame_nonempty
  (r : JobPosting) (df : DataFrame) (choice : nat) :
  forallb is_str (map client_country (r :: df)) = true ->
  exists sel filtered,
    g_selected_country (snd (run (inr (r :: df)) choice))
      = Some (Some sel) /\
    (sel = All_Countries \/ In (Some sel) (map client_country (r :: df))) /\
    g_df_filtered (snd (run (inr (r :: df)) choice)) = Some filtered /\
    filtered = df_filtered (r :: df) (Some sel) /\
    filtered <> [] /\
    country_counts filtered <> [].
Proof.
  intros Hall.
  destruct (sorted_cases (map client_country (r :: df)))
    as [[_ H] | [[H1 _] | [H1 _]]]; try congruence.
  pose proof (run_selection_reached r df choice _ H) as Hs. cbv zeta in Hs.
  set (ks := sort_str (distinct (map client_country (r :: df)))) in *.
  pose proof (nth_default_In choice (Some All_Countries) (map Some ks))
    as Hsel.
  set (sel := nth choice (Some All_Countries :: map Some ks)
                  (Some All_Countries)) in *.
  assert (Hcases : exists v, sel = Some v /\
            (v = All_Countries \/
             In (Some v) (map client_country (r :: df)))).
  { destruct Hsel as [E | Hin].
    - exists All_Countries. split; [symmetry; exact E | left; reflexivity].
    - apply in_map_iff in Hin. destruct Hin as [v [E Hv]].
      exists v. split; [symmetry; exact E|].
      right. apply sorted_keys_In. exact Hv. }
  clearbody sel. destruct Hcases as [v [Ev Hv]]. subst sel.
  assert (Hne : df_filtered (r :: df) (Some v) <> []).
  { destruct Hv as [-> | Hv]; [discriminate|].
    apply df_filtered_present_nonempty; [discriminate | exact Hv]. }
  exists v, (df_filtered (r :: df) (Some v)).
  split; [apply Hs|].
  split; [exact Hv|].
  split; [apply Hs|].
  split; [reflexivity|].
  split; [exact Hne|].
  destruct (df_filtered (r :: df) (Some v)) as [|r' F] eqn:EF; [congruence|].
  assert (Hr' : In r' (r :: df)).
  { apply (Subseq_In (df_filtered (r :: df) (Some v))).
    - apply df_filtered_Subseq.
    - rewrite EF. left. reflexivity. }
  rewrite forallb_forall in Hall.
  assert (Hc : is_str (client_country r') = true)
    by (apply Hall; apply in_map; exact Hr').
  destruct (client_country r') as [c|] eqn:Ec; [|discriminate].
  apply (country_counts_nonempty _ c). simpl. left. exact Ec.
Qed.

Lemma run_filtered_frame_nonempty_witness :
  forallb is_str (map client_country scenario) = true /\
  exists filtered,
    g_df_filtered (snd (run (inr scenario) 2)) = Some filtered /\
    filtered <> [].
Proof.
  assert (H : forallb is_str (map client_country scenario) = true)
    by reflexivity.
  split; [exact H|].
  destruct (run_filtered_frame_nonempty _ _ 2 H)
    as [sel [f [_ [_ [Hf [_ [Hne _]]]]]]].
  exists f. split; assumption.
Defined.



(** X17: on a frame of at least one row whose client countries are all
    blank, the options are "All Countries" and NaN; picking NaN filters
    every row out, and the run still goes to its end, handing three empty
    tables to the three charts. *)
Theorem run_all_blank_countries (r : JobPosting) (df : DataFrame) :
  forallb is_nan (map client_country (r :: df)) = true ->
  exists s,
    run (inr (r :: df)) 1 = (Ok tt, s) /\
    selectboxes (ui s) = [[Some All_Countries; NaN]] /\
    g_selected_country s = Some NaN /\
    g_df_filtered s = Some [] /\
    viewing (ui s) = [NaN] /\
    charts (ui s) = [px_scatter []; px_bar []; px_pie []].
Proof.
  intros Hall.
  assert (Hu : unique (map client_country (r :: df)) = [NaN])
    by (apply unique_all_nan; [discriminate | exact Hall]).
  destruct (sorted_cases (map client_country (r :: df)))
    as [[H1 _] | [[_ [_ H]] | [_ [H2 _]]]].
  - exfalso. simpl in H1, Hall.
    destruct (client_country r); discriminate.
  - assert (H' : sorted (unique (map client_country (r :: df))) = ret [NaN])
      by (rewrite H, Hu; reflexivity).
    assert (Hok : sizes_ok
                    (market_analysis
                       (df_filtered (r :: df)
                          (nth 1 (Some All_Countries :: [NaN])
                               (Some All_Countries)))) = true)
      by (simpl nth; rewrite df_filtered_nan; reflexivity).
    destruct (run_selection_ok r df 1 _ H' Hok) as [s [Hrun Hs]].
    exists s. split; [exact Hrun|].
    simpl in Hs. rewrite df_filtered_nan in Hs.
    intuition.
  - congruence.
Qed.

Lemma run_all_blank_countries_witness :
  forallb is_nan (map client_country all_blank) = true /\
  exists s, run (inr all_blank) 1 = (Ok tt, s) /\ g_df_filtered s = Some [].
Proof.
  assert (H : forallb is_nan (map client_country all_blank) = true)
    by reflexivity.
  split; [exact H|].
  destruct (run_all_blank_countries _ _ H) as [s [Hrun [_ [_ [Hf _]]]]].
  exists s. split; assumption.
Defined.

(** X18: the metrics on the page are all or nothing and never depend on the
    selection: a run on a frame with at least one row shows the row count,
    the average price and the number of distinct client countries of the
    whole frame, in this order, also when it is left by an exception
    later; every other run shows no metric. *)
Theorem metrics_shown (read_excel : exn + DataFrame) (choice : nat) :
  metrics (ui (snd (run read_excel choice))) =
    match read_excel with
    | inr (r :: df) =>
        [ ("Total Job Postings (Demand)", Count (length (r :: df)));
          ("Average Project Price (USD)",
           Money (mean (map Price_USD (r :: df))));
          ("Unique Client Countries",
           Count (nunique (map client_country (r :: df)))) ]
    | _ => []
    end.
Proof.
  destruct read_excel as [e0 | [|r df]].
  - destruct e0; reflexivity.
  - reflexivity.
  - unfold DataFrame in *.
    destruct (run_nonempty_cases r df) as [[_ [l H]] | [_ H]].
    + apply (run_selection_reached r df choice l H).
    + destruct (run_selection_raises r df choice H) as [s [Hrun Hs]].
      rewrite Hrun. simpl. apply Hs.
Qed.

Lemma sizes_ok_rejects (t : list (string * num * num))
  (c : string) (p f : num) :
  In (c, p, f) t ->
  p = None \/ (exists q, p = Some q /\ (q < 0)%Q) ->
  sizes_ok t = false.
Proof.
  intros Hin Hbad.
  destruct (sizes_ok t) eqn:E; [|reflexivity].
  unfold sizes_ok in E. rewrite forallb_forall in E.
  specialize (E _ Hin). simpl in E.
  destruct Hbad as [-> | [q [-> Hq]]]; [discriminate E|].
  simpl in E. apply Qle_bool_iff in E.
  exfalso. apply (Qlt_irrefl q).
  apply (Qlt_le_trans _ 0); assumption.
Qed.

(** X20: when a mean price in the category table of the filtered frame is
    negative or NaN, [px.scatter] rejects it as a marker size: the run is
    left by a [ValueError] with the category table bound, no chart is drawn
    and the country counts and job-type counts are never computed. *)
Theorem run_scatter_rejects (read_excel : exn + DataFrame) (choice : nat)
  (filtered : DataFrame) (c : string) (p f : num) :
  g_df_filtered (snd (run read_excel choice)) = Some filtered ->
  In (c, p, f) (market_analysis filtered) ->
  p = None \/ (exists q, p = Some q /\ (q < 0)%Q) ->
  fst (run read_excel choice) = Raised ValueError /\
  g_market_analysis (snd (run read_excel choice))
    = Some (market_analysis filtered) /\
  charts (ui (snd (run read_excel choice))) = [] /\
  g_country_counts (snd (run read_excel choice)) = None /\
  g_job_type_counts (snd (run read_excel choice)) = None.
Proof.
  intros Hf Hin Hbad.
  pose proof (sizes_ok_rejects _ c p f Hin Hbad) as Hno.
  destruct read_excel as [e | [|r df]];
    [destruct e; discriminate Hf | discriminate Hf |].
  unfold DataFrame in *.
  destruct (run_nonempty_cases r df) as [[_ [l H]] | [_ H]].
  - destruct (run_selection_reached r df choice l H)
      as (_ & H2 & H3 & _ & _ & _ & _ & Hend).
    pose proof (eq_trans (eq_sym Hf) H2) as E. inversion E; subst filtered.
    destruct Hend as [[Hok _] | Hend]; [congruence|].
    intuition.
  - destruct (run_selection_raises r df choice H) as [s [Hrun Hs]].
    rewrite Hrun in Hf. simpl in Hf.
    destruct Hs as (_ & _ & _ & Hf' & _). congruence.
Qed.

Lemma run_scatter_rejects_witness :
  g_df_filtered (snd (run (inr negative_price) 0)) = Some negative_price /\
  In ("Dev", Some (-50 / 1)%Q, Some ((1 # 2) / 1)%Q)
     (market_analysis negative_price) /\
  (-50 / 1 < 0)%Q /\
  fst (run (inr negative_price) 0) = Raised ValueError.
Proof.
  assert (H1 : g_df_filtered (snd (run (inr negative_price) 0))
               = Some negative_price) by reflexivity.
  assert (H2 : In ("Dev", Some (-50 / 1)%Q, Some ((1 # 2) / 1)%Q)
                  (market_analysis negative_price))
    by (left; reflexivity).
  assert (H3 : (-50 / 1 < 0)%Q) by reflexivity.
  split; [exact H1|]. split; [exact H2|]. split; [exact H3|].
  apply (run_scatter_rejects (inr negative_price) 0 negative_price
           "Dev" (Some (-50 / 1)%Q) (Some ((1 # 2) / 1)%Q) H1 H2).
  right. exists (-50 / 1)%Q. split; [reflexivity | exact H3].
Defined.
